(** * Invest-IQ front end: the [App] component of [src/App.js]

    A shallow embedding of the single React component of the repository:
    its four pieces of state, the asynchronous click handler
    [handleAnalyze] and the JSX tree the component returns, followed by
    the properties of the analysis workflow.

    Layout of the development:
    - [JS]      the JavaScript values the component handles (the parsed
                JSON of a response), truthiness, string conversion,
                property access, [Object.entries] and [JSON.stringify];
    - [Axios]   what [axios.get] is called with and how it settles;
    - [Async]   a small monad for the body of an [async] function:
                state-setter calls, [await], [throw], [try]/[catch]/
                [finally];
    - [React]   the rendered tree and how React turns a value into
                children;
    - [App]     the component itself, translated line by line, and the
                page as a machine driven by typing, clicks and settled
                requests;
    - [Spec]    the predicates and sample data the statements use. *)

From Stdlib Require Import String Ascii List ZArith NArith PArith Bool Lia.
From Stdlib Require Import DecimalString Permutation.
Import ListNotations.

Open Scope string_scope.
Set Warnings "-register-all".

(* ================================================================== *)
(** ** JavaScript values *)

Module JS.

(** A JavaScript number.  The component never computes with numbers, it
    only tests them for truthiness and prints them, so a finite non-zero
    double is kept as the triple ECMAScript's [Number::toString] starts
    from: its sign and the integers [s] and [n] with
    [|x| = s * 10^(n-k)], where [k] is the number of decimal digits of
    [s] and [k] is as small as possible (the shortest digits that read
    back as the same double).  [0.23] is [Fin false 23 0]. *)
Inductive number : Type :=
| NaN
| Infinity (neg : bool)
| Zero (neg : bool)
| Fin (neg : bool) (s : positive) (n : Z).

(** A value as [JSON.parse] builds it (plus [undefined]).  An object is
    the list of its own properties in the order they were created. *)
Inductive value : Type :=
| Undefined
| Null
| Bool (b : bool)
| Num (x : number)
| Str (s : string)
| Arr (items : list value)
| Obj (props : list (string * value)).

(** [ToBoolean]: what [!v], [v && _] and [v || _] test. *)
Definition truthy (v : value) : bool :=
  match v with
  | Undefined | Null => false
  | Bool b => b
  | Num NaN | Num (Zero _) => false
  | Num _ => true
  | Str s => negb (String.eqb s "")
  | Arr _ | Obj _ => true
  end.

(** [a || b] and [a && b] on values. *)
Definition or_else (a b : value) : value := if truthy a then a else b.
Definition and_then (a b : value) : value := if truthy a then b else a.

Definition nullish (v : value) : bool :=
  match v with Undefined | Null => true | _ => false end.

(** *** Numbers to strings *)

Definition digits (p : positive) : string :=
  NilEmpty.string_of_uint (Pos.to_uint p).

Fixpoint zeros (k : nat) : string :=
  match k with O => "" | S k' => String "0" (zeros k') end.

Definition take (k : nat) (s : string) : string := substring 0 k s.
Definition drop (k : nat) (s : string) : string :=
  substring k (String.length s - k) s.

Definition nat_digits (m : nat) : string :=
  NilEmpty.string_of_uint (Nat.to_uint m).

(** The exponent part ["e+21"], ["e-7"] of steps 9 and 10. *)
Definition exponent (e : Z) : string :=
  "e" ++ (if (e <? 0)%Z then "-" else "+") ++ nat_digits (Z.abs_nat e).

(** [Number::toString] for a positive finite number, steps 6 to 10 of
    the ECMAScript algorithm, radix 10. *)
Definition positive_to_string (s : positive) (n : Z) : string :=
  let ds := digits s in
  let k := Z.of_nat (String.length ds) in
  if ((k <=? n) && (n <=? 21))%Z then
    ds ++ zeros (Z.to_nat (n - k))
  else if ((0 <? n) && (n <=? 21))%Z then
    take (Z.to_nat n) ds ++ "." ++ drop (Z.to_nat n) ds
  else if ((-6 <? n) && (n <=? 0))%Z then
    "0." ++ zeros (Z.to_nat (- n)) ++ ds
  else if (k =? 1)%Z then
    ds ++ exponent (n - 1)
  else
    take 1 ds ++ "." ++ drop 1 ds ++ exponent (n - 1).

Definition number_to_string (x : number) : string :=
  match x with
  | NaN => "NaN"
  | Zero _ => "0"
  | Infinity neg => if neg then "-Infinity" else "Infinity"
  | Fin neg s n =>
      (if neg then "-" else "") ++ positive_to_string s n
  end.

(** *** [ToString], as a template literal applies it *)

Definition join (sep : string) (parts : list string) : string :=
  match parts with
  | [] => ""
  | p :: ps => fold_left (fun acc q => acc ++ sep ++ q) ps p
  end.

Fixpoint to_string (v : value) : string :=
  match v with
  | Undefined => "undefined"
  | Null => "null"
  | Bool b => if b then "true" else "false"
  | Num x => number_to_string x
  | Str s => s
  | Arr items =>
      (* Array.prototype.join: null and undefined elements print as "" *)
      join ","
        ((fix each (l : list value) : list string :=
            match l with
            | [] => []
            | x :: l' =>
                (if nullish x then "" else to_string x) :: each l'
            end) items)
  | Obj _ => "[object Object]"
  end.

(** *** Property order of an ordinary object

    [OrdinaryOwnPropertyKeys]: the keys that are array indices come
    first, in ascending numeric order, then the other string keys in
    the order the properties were created. *)

Definition is_digit (c : ascii) : bool :=
  let n := N_of_ascii c in ((48 <=? n) && (n <=? 57))%N.

Fixpoint parse_digits (s : string) (acc : N) : option N :=
  match s with
  | EmptyString => Some acc
  | String c s' =>
      if is_digit c
      then parse_digits s' (acc * 10 + (N_of_ascii c - 48))%N
      else None
  end.

(** A key is an array index when it is the canonical decimal form of an
    integer between 0 and 2^32 - 2. *)
Definition array_index (key : string) : option N :=
  match key with
  | EmptyString => None
  | String c rest =>
      if (Ascii.eqb c "0" && negb (String.eqb rest ""))%bool then None
      else
        match parse_digits key 0 with
        | Some i => if (i <? 4294967295)%N then Some i else None
        | None => None
        end
  end.

Definition is_index (key : string) : bool :=
  match array_index key with Some _ => true | None => false end.

Definition index_of (key : string) : N :=
  match array_index key with Some i => i | None => 0%N end.

Section Order.
Context {A : Type}.

Fixpoint insert_by_index (p : string * A) (l : list (string * A))
  : list (string * A) :=
  match l with
  | [] => [p]
  | q :: l' =>
      if (index_of (fst p) <? index_of (fst q))%N
      then p :: q :: l'
      else q :: insert_by_index p l'
  end.

Definition sort_by_index (l : list (string * A)) : list (string * A) :=
  fold_right insert_by_index [] l.

Definition own_property_order (props : list (string * A))
  : list (string * A) :=
  (sort_by_index (filter (fun p => is_index (fst p)) props)
   ++ filter (fun p => negb (is_index (fst p))) props)%list.
End Order.

(** *** Completions: a value, or a thrown exception *)

Inductive thrown : Type :=
| TypeError          (* reading a property of null or undefined *)
| InvalidChild.      (* React: objects are not valid as a child *)

Inductive completion (A : Type) : Type :=
| Normal (a : A)
| Throws (e : thrown).
Arguments Normal {A} a.
Arguments Throws {A} e.

Definition cbind {A B} (c : completion A) (f : A -> completion B)
  : completion B :=
  match c with Normal a => f a | Throws e => Throws e end.

(** *** Property access

    [lookup] is the value of an own property.  The component reads the
    properties [data], [error], [analysis], [metrics], [risk_category]
    and [plot] only; none of them is an array index, [length] or a
    member of a built-in prototype, so on a primitive or an array the
    read yields [undefined]. *)
Fixpoint lookup (key : string) (props : list (string * value)) : value :=
  match props with
  | [] => Undefined
  | (k, v) :: rest => if String.eqb k key then v else lookup key rest
  end.

Definition own (v : value) (key : string) : value :=
  match v with
  | Obj props => lookup key props
  | _ => Undefined
  end.

(** [v.key]: throws a [TypeError] on [null] and [undefined]. *)
Definition get (v : value) (key : string) : completion value :=
  if nullish v then Throws TypeError else Normal (own v key).

(** [v?.key]: [undefined] on [null] and [undefined]. *)
Definition get_opt (v : value) (key : string) : value :=
  if nullish v then Undefined else own v key.

(** *** [Object.entries] *)

Definition N_digits (i : N) : string :=
  NilEmpty.string_of_uint (N.to_uint i).

Fixpoint indexed {A} (i : N) (l : list A) : list (string * A) :=
  match l with
  | [] => []
  | x :: l' => (N_digits i, x) :: indexed (N.succ i) l'
  end.

Fixpoint chars (s : string) : list value :=
  match s with
  | EmptyString => []
  | String c s' => Str (String c "") :: chars s'
  end.

(** The own enumerable string-keyed properties of [ToObject v], in
    property order; a [TypeError] on [null] and [undefined]. *)
Definition entries (v : value) : completion (list (string * value)) :=
  match v with
  | Undefined | Null => Throws TypeError
  | Bool _ | Num _ => Normal []
  | Str s => Normal (indexed 0 (chars s))
  | Arr items => Normal (indexed 0 items)
  | Obj props => Normal (own_property_order props)
  end.

(** *** [JSON.stringify (v, null, 2)] *)

Definition dquote : string := String (ascii_of_nat 34) "".
Definition backslash : string := String (ascii_of_nat 92) "".
Definition newline : string := String (ascii_of_nat 10) "".

Definition hex_digit (n : N) : string :=
  match N.to_nat n with
  | 0 => "0" | 1 => "1" | 2 => "2" | 3 => "3" | 4 => "4" | 5 => "5"
  | 6 => "6" | 7 => "7" | 8 => "8" | 9 => "9" | 10 => "a" | 11 => "b"
  | 12 => "c" | 13 => "d" | 14 => "e" | _ => "f"
  end%nat.

(** One character of [QuoteJSONString]. *)
Definition quote_char (c : ascii) : string :=
  let n := N_of_ascii c in
  if (n =? 8)%N then backslash ++ "b"
  else if (n =? 9)%N then backslash ++ "t"
  else if (n =? 10)%N then backslash ++ "n"
  else if (n =? 12)%N then backslash ++ "f"
  else if (n =? 13)%N then backslash ++ "r"
  else if (n =? 34)%N then backslash ++ dquote
  else if (n =? 92)%N then backslash ++ backslash
  else if (n <? 32)%N then
    backslash ++ "u00" ++ hex_digit (n / 16) ++ hex_digit (n mod 16)
  else String c "".

Fixpoint quote_body (s : string) : string :=
  match s with
  | EmptyString => ""
  | String c s' => quote_char c ++ quote_body s'
  end.

Definition quote (s : string) : string := dquote ++ quote_body s ++ dquote.

(** The members that serialise to something, as ["key": text]. *)
Fixpoint members (l : list (string * option string)) : list string :=
  match l with
  | [] => []
  | (k, Some text) :: l' => (quote k ++ ": " ++ text) :: members l'
  | (_, None) :: l' => members l'
  end.

(** [wrap "{" "}" indent parts]: the bracketed, indented layout that
    [SerializeJSONObject] and [SerializeJSONArray] share when the gap is
    not empty. *)
Definition wrap (opening closing stepback : string) (parts : list string)
  : string :=
  match parts with
  | [] => opening ++ closing
  | _ =>
      let indent := stepback ++ "  " in
      opening ++ newline ++ indent
      ++ join ("," ++ newline ++ indent) parts
      ++ newline ++ stepback ++ closing
  end.

(** [SerializeJSONProperty] with a gap of two spaces; [None] is
    [undefined]. *)
Fixpoint serialize (stepback : string) (v : value) : option string :=
  match v with
  | Undefined => None
  | Null => Some "null"
  | Bool b => Some (if b then "true" else "false")
  | Num x =>
      match x with
      | NaN | Infinity _ => Some "null"
      | _ => Some (number_to_string x)
      end
  | Str s => Some (quote s)
  | Arr items =>
      let indent := stepback ++ "  " in
      Some (wrap "[" "]" stepback
        ((fix each (l : list value) : list string :=
            match l with
            | [] => []
            | x :: l' =>
                match serialize indent x with
                | Some text => text
                | None => "null"
                end :: each l'
            end) items))
  | Obj props =>
      let indent := stepback ++ "  " in
      Some (wrap "{" "}" stepback
        (members (own_property_order
          ((fix each (l : list (string * value))
              : list (string * option string) :=
              match l with
              | [] => []
              | (k, x) :: l' => (k, serialize indent x) :: each l'
              end) props))))
  end.

Definition stringify (v : value) : option string := serialize "" v.

(** *** [String.prototype.toUpperCase]

    Exact on ASCII text, which is what a ticker symbol is made of: the
    letters a to z are mapped to A to Z and every other character is
    kept. *)
Definition upper_char (c : ascii) : ascii :=
  let n := N_of_ascii c in
  if ((97 <=? n) && (n <=? 122))%N then ascii_of_N (n - 32) else c.

Fixpoint to_upper_case (s : string) : string :=
  match s with
  | EmptyString => ""
  | String c s' => String (upper_char c) (to_upper_case s')
  end.

End JS.

(* ================================================================== *)
(** ** The HTTP client

    [axios] is a dependency of the repository, not part of it.  This
    module fixes what the component relies on: the shape of a call, of a
    response and of a rejection, and the library's default rule for
    which replies resolve the promise. *)

Module Axios.

Inductive method : Type := GET | POST | PUT | DELETE.

(** The optional second argument of [axios.get]. *)
Record config : Type := {
  params : list (string * string);
  headers : list (string * string);
  body : option string
}.

Record request : Type := {
  verb : method;
  url : string;
  options : option config
}.

(** [axios.get(url)], called with the URL alone. *)
Definition get (u : string) : request :=
  {| verb := GET; url := u; options := None |}.

(** [response.data] is the body after the default response transform:
    the parsed JSON, or the text as a string when it does not parse. *)
Record response : Type := {
  status : Z;
  data : JS.value
}.

(** What the promise rejects with; [err.response] is [undefined] when no
    reply was received. *)
Record error : Type := {
  err_response : option response
}.

Inductive outcome : Type :=
| Resolved (r : response)
| Rejected (e : error).

(** What the transport delivers. *)
Inductive reply : Type :=
| NoReply
| Reply (r : response).

(** The default [validateStatus]. *)
Definition validate_status (st : Z) : bool :=
  ((200 <=? st) && (st <? 300))%Z.

Definition settle (t : reply) : outcome :=
  match t with
  | NoReply => Rejected {| err_response := None |}
  | Reply r =>
      if validate_status (status r) then Resolved r
      else Rejected {| err_response := Some r |}
  end.

End Axios.

(* ================================================================== *)
(** ** Bodies of [async] functions

    A program calls effects of type [E] (the state setters of a
    component), awaits HTTP requests, returns or throws.  [await] hands
    the outcome of the request to the rest of the body. *)

Module Async.

Section Programs.
Context {E : Type}.

Inductive prog (A : Type) : Type :=
| Ret (a : A)
| Throw (e : Axios.error)
| Do (o : E) (k : prog A)
| Wait (r : Axios.request) (k : Axios.outcome -> prog A).

Arguments Ret {A} a.
Arguments Throw {A} e.
Arguments Do {A} o k.
Arguments Wait {A} r k.

Fixpoint bind {A B} (p : prog A) (f : A -> prog B) : prog B :=
  match p with
  | Ret a => f a
  | Throw e => Throw e
  | Do o k => Do o (bind k f)
  | Wait r k => Wait r (fun out => bind (k out) f)
  end.

Definition call (o : E) : prog unit := Do o (Ret tt).

(** [await promise]: the value the promise resolves with, or a throw of
    what it rejects with. *)
Definition await (r : Axios.request) : prog Axios.response :=
  Wait r (fun out =>
    match out with
    | Axios.Resolved resp => Ret resp
    | Axios.Rejected err => Throw err
    end).

(** [try { p } catch (err) { h err }] *)
Fixpoint try_catch {A} (p : prog A) (h : Axios.error -> prog A) : prog A :=
  match p with
  | Ret a => Ret a
  | Throw e => h e
  | Do o k => Do o (try_catch k h)
  | Wait r k => Wait r (fun out => try_catch (k out) h)
  end.

(** [try { p } finally { f }]: [f] runs on both exits, and the exit of
    [p] is kept unless [f] itself throws. *)
Fixpoint try_finally {A} (p : prog A) (f : prog unit) : prog A :=
  match p with
  | Ret a => bind f (fun _ => Ret a)
  | Throw e => bind f (fun _ => Throw e)
  | Do o k => Do o (try_finally k f)
  | Wait r k => Wait r (fun out => try_finally (k out) f)
  end.

(** *** Running a program

    [apply] is the effect of a setter on the state [S]; [net] answers
    each request.  The trace records every setter call and every request
    with the state right after it. *)

Inductive event : Type :=
| Called (o : E)
| Requested (r : Axios.request).

Context {S : Type} (apply : E -> S -> S).

Fixpoint exec {A} (net : Axios.request -> Axios.outcome) (p : prog A)
  (s : S) : list (event * S) :=
  match p with
  | Ret _ | Throw _ => []
  | Do o k => let s' := apply o s in (Called o, s') :: exec net k s'
  | Wait r k => (Requested r, s) :: exec net (k (net r)) s
  end.

(** The synchronous part of a program: up to its first [await]. *)
Inductive paused (A : Type) : Type :=
| Finished
| Suspended (r : Axios.request) (k : Axios.outcome -> prog A).

Arguments Finished {A}.
Arguments Suspended {A} r k.

Fixpoint advance {A} (p : prog A) (s : S) : S * paused A :=
  match p with
  | Ret _ | Throw _ => (s, Finished)
  | Do o k => advance k (apply o s)
  | Wait r k => (s, Suspended r k)
  end.

End Programs.

Arguments prog : clear implicits.
Arguments event : clear implicits.
Arguments Ret {E A} a.
Arguments Throw {E A} e.
Arguments Do {E A} o k.
Arguments Wait {E A} r k.
Arguments Finished {E A}.
Arguments Suspended {E A} r k.
Arguments Called {E} o.
Arguments Requested {E} r.

Definition final {E S} (s : S) (t : list (event E * S)) : S :=
  last (map snd t) s.

Definition requests {E S} (t : list (event E * S)) : list Axios.request :=
  flat_map (fun es =>
    match fst es with Requested r => [r] | Called _ => [] end) t.

Definition calls {E S} (t : list (event E * S)) : list E :=
  flat_map (fun es =>
    match fst es with Called o => [o] | Requested _ => [] end) t.

Module Notations.
Notation "x <- p ;; q" := (bind p (fun x => q))
  (at level 61, p at next level, right associativity).
Notation "p ;; q" := (bind p (fun _ => q))
  (at level 61, right associativity).
End Notations.

End Async.

(* ================================================================== *)
(** ** Rendering

    A component returns a tree of elements whose children are elements,
    arrays of elements, or plain values written in braces.  React then
    turns every value into text nodes, or refuses it. *)

Module React.

Inductive prop : Type :=
| Val (v : JS.value)
| Fn (name : string).          (* an event handler, by its source name *)

Inductive element : Type :=
| Child (v : JS.value)
| Tag (tag : string) (props : list (string * prop))
      (children : list element)
| Items (items : list element).

(** The mounted tree; an element keeps the props it was created with. *)
Inductive node : Type :=
| Text (s : string)
| Element (tag : string) (props : list (string * prop))
          (children : list node).

(** A value as a child: strings and numbers become text, booleans,
    [null], [undefined] and the empty string render nothing, arrays
    render their items, and any other object is refused. *)
Fixpoint mount_value (v : JS.value) : JS.completion (list node) :=
  match v with
  | JS.Undefined | JS.Null | JS.Bool _ => JS.Normal []
  | JS.Num x => JS.Normal [Text (JS.number_to_string x)]
  | JS.Str s => JS.Normal (if String.eqb s "" then [] else [Text s])
  | JS.Arr items =>
      (fix each (l : list JS.value) : JS.completion (list node) :=
         match l with
         | [] => JS.Normal []
         | x :: l' =>
             JS.cbind (mount_value x) (fun ns =>
             JS.cbind (each l') (fun ms => JS.Normal (ns ++ ms)%list))
         end) items
  | JS.Obj _ => JS.Throws JS.InvalidChild
  end.

Fixpoint mount (e : element) : JS.completion (list node) :=
  let each :=
    fix each (l : list element) : JS.completion (list node) :=
      match l with
      | [] => JS.Normal []
      | x :: l' =>
          JS.cbind (mount x) (fun ns =>
          JS.cbind (each l') (fun ms => JS.Normal (ns ++ ms)%list))
      end in
  match e with
  | Child v => mount_value v
  | Tag t ps cs =>
      JS.cbind (each cs) (fun ns => JS.Normal [Element t ps ns])
  | Items l => each l
  end.

(** *** Reading a mounted tree *)

Fixpoint text_content (n : node) : string :=
  match n with
  | Text s => s
  | Element _ _ cs =>
      (fix each (l : list node) : string :=
         match l with
         | [] => ""
         | x :: l' => text_content x ++ each l'
         end) cs
  end.

(** The node and everything below it, in document order. *)
Fixpoint descendants (n : node) : list node :=
  n :: match n with
       | Text _ => []
       | Element _ _ cs =>
           (fix each (l : list node) : list node :=
              match l with
              | [] => []
              | x :: l' => (descendants x ++ each l')%list
              end) cs
       end.

Definition has_tag (t : string) (n : node) : bool :=
  match n with
  | Text _ => false
  | Element t' _ _ => String.eqb t t'
  end.

Definition by_tag (t : string) (roots : list node) : list node :=
  filter (has_tag t) (flat_map descendants roots).

Fixpoint prop_of (name : string) (ps : list (string * prop)) : option prop :=
  match ps with
  | [] => None
  | (k, p) :: rest => if String.eqb k name then Some p else prop_of name rest
  end.

Definition attribute (name : string) (n : node) : option prop :=
  match n with
  | Text _ => None
  | Element _ ps _ => prop_of name ps
  end.

End React.

(* ================================================================== *)
(** ** The component *)

Module App.

Import Async.Notations.

(** The four [useState] cells, with their initial values. *)
Record State : Type := {
  ticker : string;
  analysis : JS.value;
  error : JS.value;
  loading : bool
}.

Definition initial : State :=
  {| ticker := ""; analysis := JS.Null; error := JS.Null; loading := false |}.

(** The four setters. *)
Inductive setter : Type :=
| SetTicker (s : string)
| SetAnalysis (v : JS.value)
| SetError (v : JS.value)
| SetLoading (b : bool).

Definition apply (o : setter) (s : State) : State :=
  match o with
  | SetTicker t =>
      {| ticker := t; analysis := analysis s; error := error s;
         loading := loading s |}
  | SetAnalysis v =>
      {| ticker := ticker s; analysis := v; error := error s;
         loading := loading s |}
  | SetError v =>
      {| ticker := ticker s; analysis := analysis s; error := v;
         loading := loading s |}
  | SetLoading b =>
      {| ticker := ticker s; analysis := analysis s; error := error s;
         loading := b |}
  end.

Definition setTicker (t : string) := Async.call (SetTicker t).
Definition setAnalysis (v : JS.value) := Async.call (SetAnalysis v).
Definition setError (v : JS.value) := Async.call (SetError v).
Definition setLoading (b : bool) := Async.call (SetLoading b).

Definition validation_message : string := "Please enter a stock ticker.".
Definition fallback_message : string := "An error occurred.".
Definition base_url : string := "http://127.0.0.1:8000".

(** [`http://127.0.0.1:8000/analyze/${ticker}`] *)
Definition analyze_url (ticker : string) : string :=
  base_url ++ "/analyze/" ++ JS.to_string (JS.Str ticker).

(** [err.response?.data?.error] *)
Definition server_error (err : Axios.error) : JS.value :=
  match Axios.err_response err with
  | None => JS.Undefined
  | Some resp => JS.get_opt (Axios.data resp) "error"
  end.

(** [handleAnalyze], lines 11 to 28.  [ticker] is the value the closure
    captured: the state cell at the render the button belongs to. *)
Definition handleAnalyze (ticker : string) : Async.prog setter unit :=
  if negb (JS.truthy (JS.Str ticker)) then
    setError (JS.Str validation_message)
  else
    setError JS.Null ;;
    setLoading true ;;
    Async.try_finally
      (Async.try_catch
         (response <- Async.await (Axios.get (analyze_url ticker)) ;;
          setAnalysis (Axios.data response))
         (fun err =>
            setError (JS.or_else (server_error err)
                                 (JS.Str fallback_message))))
      (setLoading false).

(** One invocation of the handler on state [s], the request answered by
    [net]. *)
Definition analyze (net : Axios.request -> Axios.outcome) (s : State)
  : list (Async.event setter * State) :=
  Async.exec apply net (handleAnalyze (ticker s)) s.

(** *** The returned JSX, lines 30 to 68 *)

Definition text (s : string) : React.element := React.Child (JS.Str s).

Definition class (c : string) : string * React.prop :=
  ("className", React.Val (JS.Str c)).

(** [{error && <p className="error">{error}</p>}] *)
Definition error_part (error : JS.value) : React.element :=
  if JS.truthy error
  then React.Tag "p" [class "error"] [React.Child error]
  else React.Child error.

(** One [<li key={key}>{key}: {value}</li>]. *)
Definition metric_item (kv : string * JS.value) : React.element :=
  React.Tag "li" [("key", React.Val (JS.Str (fst kv)))]
    [text (fst kv); text ": "; React.Child (snd kv)].

Definition stringified (v : JS.value) : JS.value :=
  match JS.stringify v with
  | Some s => JS.Str s
  | None => JS.Undefined
  end.

(** [{analysis && (<div> ... </div>)}] *)
Definition analysis_part (ticker : string) (analysis : JS.value)
  : JS.completion React.element :=
  if JS.truthy analysis then
    JS.cbind (JS.get analysis "analysis") (fun inner =>
    JS.cbind (JS.get inner "risk_category") (fun risk =>
    JS.cbind (JS.get analysis "metrics") (fun metrics =>
    JS.cbind (JS.entries metrics) (fun pairs =>
    JS.cbind (JS.get analysis "plot") (fun plot =>
    JS.Normal
      (React.Tag "div" []
         [React.Tag "h2" []
            [text "Risk Analysis for "; text (JS.to_upper_case ticker)];
          React.Tag "p" [] [text "Risk Category: "; React.Child risk];
          React.Tag "h3" [] [text "Metrics:"];
          React.Tag "ul" [] [React.Items (map metric_item pairs)];
          React.Tag "h3" [] [text "Analysis:"];
          React.Tag "pre" [] [React.Child (stringified inner)];
          React.Tag "h3" [] [text "Plot:"];
          React.Tag "img"
            [("src", React.Val (JS.Str
                ("data:image/png;base64," ++ JS.to_string plot)));
             ("alt", React.Val (JS.Str "Risk Analysis Plot"));
             ("style", React.Val (JS.Obj
                [("width", JS.Str "100%"); ("height", JS.Str "auto")]))]
            []]))))))
  else JS.Normal (React.Child analysis).

Definition view (s : State) : JS.completion React.element :=
  JS.cbind (analysis_part (ticker s) (analysis s)) (fun result =>
  JS.Normal
    (React.Tag "div" [class "App"]
       [React.Tag "header" [class "App-header"]
          [React.Tag "h1" [] [text "Stock Risk Analyzer"];
           React.Tag "input"
             [("type", React.Val (JS.Str "text"));
              ("placeholder", React.Val
                 (JS.Str "Enter stock ticker (e.g., RELIANCE.NS)"));
              ("value", React.Val (JS.Str (ticker s)));
              ("onChange", React.Fn "setTicker(e.target.value)")]
             [];
           React.Tag "button"
             [("onClick", React.Fn "handleAnalyze");
              ("disabled", React.Val (JS.Bool (loading s)))]
             [text (if loading s then "Analyzing..." else "Analyze")];
           error_part (error s);
           result]])).

(** What is on the page in state [s]. *)
Definition render (s : State) : JS.completion (list React.node) :=
  JS.cbind (view s) React.mount.

(** The error paragraph of the page. *)
Definition displayed_error (s : State) : JS.completion (list React.node) :=
  React.mount (error_part (error s)).

(** The analysis block of the page. *)
Definition displayed_analysis (s : State) : JS.completion (list React.node) :=
  JS.cbind (analysis_part (ticker s) (analysis s)) React.mount.

(** *** The page as a machine

    The component between events: its state and the requests that have
    not settled yet, each with the rest of the handler that waits for
    it.  The user types in the input, clicks the button, and the
    transport settles a pending request.  A click reaches [handleAnalyze]
    only when the button is enabled, that is when [loading] is false
    (line 40).  The setter calls of one synchronous run of a handler are
    applied together. *)

Record page : Type := {
  state : State;
  inflight : list (Axios.request
                   * (Axios.outcome -> Async.prog setter unit))
}.

Definition start : page := {| state := initial; inflight := [] |}.

Inductive input : Type :=
| Typed (text : string)
| Click
| Settled (i : nat) (out : Axios.outcome).

Fixpoint remove_nth {A} (i : nat) (l : list A) : list A :=
  match l, i with
  | [], _ => []
  | _ :: l', O => l'
  | x :: l', S i' => x :: remove_nth i' l'
  end.

(** Run a handler up to its next [await]. *)
Definition resume (p : Async.prog setter unit) (c : page) : page :=
  match Async.advance apply p (state c) with
  | (s', Async.Finished) => {| state := s'; inflight := inflight c |}
  | (s', Async.Suspended r k) =>
      {| state := s'; inflight := (inflight c ++ [(r, k)])%list |}
  end.

Definition step (c : page) (i : input) : page :=
  match i with
  | Typed t => resume (setTicker t) c
  | Click =>
      if loading (state c) then c
      else resume (handleAnalyze (ticker (state c))) c
  | Settled n out =>
      match nth_error (inflight c) n with
      | None => c
      | Some (_, k) =>
          resume (k out)
            {| state := state c; inflight := remove_nth n (inflight c) |}
      end
  end.

Definition run (c : page) (inputs : list input) : page :=
  fold_left step inputs c.

End App.

(* ================================================================== *)
(** ** Vocabulary of the statements *)

Module Spec.

(** A whitespace-only (or empty) text. *)
Definition is_space (c : ascii) : bool :=
  let n := N_of_ascii c in ((n =? 32) || ((9 <=? n) && (n <=? 13)))%N.

Fixpoint blank (s : string) : bool :=
  match s with
  | EmptyString => true
  | String c s' => is_space c && blank s'
  end.

(** The request one analysis of [ticker] sends. *)
Definition request_for (ticker : string) : Axios.request :=
  {| Axios.verb := Axios.GET;
     Axios.url := "http://127.0.0.1:8000/analyze/" ++ ticker;
     Axios.options := None |}.

(** The state once a click has passed validation, with the request out. *)
Definition waiting (s : App.State) : App.State :=
  {| App.ticker := App.ticker s; App.analysis := App.analysis s;
     App.error := JS.Null; App.loading := true |}.

(** The state a successful analysis ends in. *)
Definition succeeded (s : App.State) (body : JS.value) : App.State :=
  {| App.ticker := App.ticker s; App.analysis := body;
     App.error := JS.Null; App.loading := false |}.

(** The state a failed analysis ends in, showing [message]. *)
Definition failed (s : App.State) (message : JS.value) : App.State :=
  {| App.ticker := App.ticker s; App.analysis := App.analysis s;
     App.error := message; App.loading := false |}.

(** The paragraph that shows an error text. *)
Definition error_paragraph (message : string) : React.node :=
  React.Element "p" [("className", React.Val (JS.Str "error"))]
    [React.Text message].

(** A transport that never gets a reply. *)
Definition offline (_ : Axios.request) : Axios.outcome :=
  Axios.settle Axios.NoReply.

(** A transport that answers every request with the same reply. *)
Definition always (st : Z) (body : JS.value) (_ : Axios.request)
  : Axios.outcome :=
  Axios.settle (Axios.Reply {| Axios.status := st; Axios.data := body |}).

Definition with_ticker (t : string) : App.State :=
  {| App.ticker := t; App.analysis := JS.Null; App.error := JS.Null;
     App.loading := false |}.

(** A rejection that carries no parsed body: no reply at all, or a reply
    whose body stayed text (it did not parse as JSON) or is missing. *)
Definition no_parsed_body (err : Axios.error) : bool :=
  match Axios.err_response err with
  | None => true
  | Some resp =>
      match Axios.data resp with
      | JS.Str _ | JS.Undefined | JS.Null => true
      | _ => false
      end
  end.

(** The request of state [s] fails: it is rejected with [err]. *)
Definition fails_with (net : Axios.request -> Axios.outcome)
  (s : App.State) (err : Axios.error) : Prop :=
  net (request_for (App.ticker s)) = Axios.Rejected err.

(** The success body of the running example:
    [{ metrics: {"volatility": 0.23}, analysis: {risk_category: "High"},
       plot: "iVBORw0KG..." }]. *)
Definition sample_body : JS.value :=
  JS.Obj
    [("metrics", JS.Obj [("volatility", JS.Num (JS.Fin false 23 0))]);
     ("analysis", JS.Obj [("risk_category", JS.Str "High")]);
     ("plot", JS.Str "iVBORw0KG...")].

(** A continuation that, however the request settles, makes one setter
    call that leaves [loading] alone, then calls [setLoading(false)] and
    ends. *)
Definition finishes (k : Axios.outcome -> Async.prog App.setter unit)
  : Prop :=
  forall out s, exists o,
    Async.advance App.apply (k out) s
    = (App.apply (App.SetLoading false) (App.apply o s), Async.Finished)
    /\ App.loading (App.apply o s) = App.loading s.

(** The page is consistent when [loading] says whether a request is in
    flight, and there is at most one. *)
Definition consistent (c : App.page) : Prop :=
  (App.inflight c = [] /\ App.loading (App.state c) = false)
  \/ (exists r k,
        App.inflight c = [(r, k)]
        /\ App.loading (App.state c) = true
        /\ finishes k).

End Spec.

(* ================================================================== *)
(** ** Vocabulary for the page as a whole *)

Module Shape.

Definition is_text (n : React.node) : bool :=
  match n with React.Text _ => true | React.Element _ _ _ => false end.

(** Whether an element tree has a tag [t] anywhere. *)
Fixpoint mentions (t : string) (e : React.element) : bool :=
  let any :=
    fix any (l : list React.element) : bool :=
      match l with
      | [] => false
      | x :: l' => mentions t x || any l'
      end in
  match e with
  | React.Child _ => false
  | React.Tag t' _ cs => String.eqb t t' || any cs
  | React.Items l => any l
  end.

(** The values React shows as plain text or as nothing. *)
Definition primitive (v : JS.value) : bool :=
  match v with
  | JS.Arr _ | JS.Obj _ => false
  | _ => true
  end.

(** The text a primitive child contributes: strings and numbers print,
    booleans, [null] and [undefined] are blank. *)
Definition primitive_text (v : JS.value) : string :=
  match v with
  | JS.Str s => s
  | JS.Num x => JS.number_to_string x
  | _ => ""
  end.

(** The rest of [handleAnalyze] after its [await]: what it makes of the
    state, for each way the request can settle. *)
Definition settled (out : Axios.outcome) (s : App.State) : App.State :=
  match out with
  | Axios.Resolved resp =>
      {| App.ticker := App.ticker s; App.analysis := Axios.data resp;
         App.error := App.error s; App.loading := false |}
  | Axios.Rejected err =>
      {| App.ticker := App.ticker s; App.analysis := App.analysis s;
         App.error := JS.or_else (App.server_error err)
                        (JS.Str App.fallback_message);
         App.loading := false |}
  end.

Definition handler_tail (k : Axios.outcome -> Async.prog App.setter unit)
  : Prop :=
  forall out s,
    Async.advance App.apply (k out) s = (settled out s, Async.Finished).

(** The page between events: nothing in flight and [loading] false, or
    one request in flight, sent by [handleAnalyze], with [loading] true
    and no error stored. *)
Definition tracked (c : App.page) : Prop :=
  (App.inflight c = [] /\ App.loading (App.state c) = false)
  \/ (exists r k,
        App.inflight c = [(r, k)]
        /\ App.loading (App.state c) = true
        /\ App.error (App.state c) = JS.Null
        /\ handler_tail k).

(** The nodes of the three fixed controls of the page. *)
Definition title_node : React.node :=
  React.Element "h1" [] [React.Text "Stock Risk Analyzer"].

Definition input_node (s : App.State) : React.node :=
  React.Element "input"
    [("type", React.Val (JS.Str "text"));
     ("placeholder",
      React.Val (JS.Str "Enter stock ticker (e.g., RELIANCE.NS)"));
     ("value", React.Val (JS.Str (App.ticker s)));
     ("onChange", React.Fn "setTicker(e.target.value)")]
    [].

Definition button_node (s : App.State) : React.node :=
  React.Element "button"
    [("onClick", React.Fn "handleAnalyze");
     ("disabled", React.Val (JS.Bool (App.loading s)))]
    [React.Text (if App.loading s then "Analyzing..." else "Analyze")].

(** The nodes of the analysis block. *)
Definition heading_node (ticker : string) : React.node :=
  React.Element "h2" []
    (React.Text "Risk Analysis for "
     :: if String.eqb (JS.to_upper_case ticker) "" then []
        else [React.Text (JS.to_upper_case ticker)]).

Definition image_node (plot : JS.value) : React.node :=
  React.Element "img"
    [("src", React.Val (JS.Str
        ("data:image/png;base64," ++ JS.to_string plot)));
     ("alt", React.Val (JS.Str "Risk Analysis Plot"));
     ("style", React.Val (JS.Obj
        [("width", JS.Str "100%"); ("height", JS.Str "auto")]))]
    [].

Definition block_node (ticker : string) (risk items pre : list React.node)
  (plot : JS.value) : React.node :=
  React.Element "div" []
    [heading_node ticker;
     React.Element "p" [] (React.Text "Risk Category: " :: risk);
     React.Element "h3" [] [React.Text "Metrics:"];
     React.Element "ul" [] items;
     React.Element "h3" [] [React.Text "Analysis:"];
     React.Element "pre" [] pre;
     React.Element "h3" [] [React.Text "Plot:"];
     image_node plot].

(** The page of a state with nothing stored: the three controls. *)
Definition bare_page (s : App.State) : list React.node :=
  [React.Element "div" [("className", React.Val (JS.Str "App"))]
     [React.Element "header"
        [("className", React.Val (JS.Str "App-header"))]
        [title_node; input_node s; button_node s]]].

(** The text of one metric of the list. *)
Definition metric_text (kv : string * JS.value) : string :=
  fst kv ++ ": " ++ primitive_text (snd kv).

(** A state that shows the running example, typed in lower case. *)
Definition sample_state : App.State :=
  {| App.ticker := "tcs.ns"; App.analysis := Spec.sample_body;
     App.error := JS.Null; App.loading := false |}.

Definition sample_block : list React.node :=
  match App.displayed_analysis sample_state with
  | JS.Normal blk => blk
  | JS.Throws _ => []
  end.

(** The values React accepts as a child: anything but an object, inside
    arrays too. *)
Fixpoint renderable (v : JS.value) : bool :=
  match v with
  | JS.Obj _ => false
  | JS.Arr items =>
      (fix all (l : list JS.value) : bool :=
         match l with
         | [] => true
         | x :: l' => renderable x && all l'
         end) items
  | _ => true
  end.

(** The page around an error part and an analysis part. *)
Definition page_of (s : App.State) (errs blk : list React.node)
  : list React.node :=
  [React.Element "div" [("className", React.Val (JS.Str "App"))]
     [React.Element "header"
        [("className", React.Val (JS.Str "App-header"))]
        (title_node :: input_node s :: button_node s :: errs ++ blk)%list]].

(** The texts typed into the input, oldest first. *)
Definition typed_texts (inputs : list App.input) : list string :=
  flat_map (fun i =>
    match i with App.Typed t => [t] | _ => [] end) inputs.

End Shape.

(** Induction on values and on element trees, through the lists nested
    in them. *)

Section ValueInduction.
Variable P : JS.value -> Prop.
Hypothesis HUndefined : P JS.Undefined.
Hypothesis HNull : P JS.Null.
Hypothesis HBool : forall b, P (JS.Bool b).
Hypothesis HNum : forall x, P (JS.Num x).
Hypothesis HStr : forall s, P (JS.Str s).
Hypothesis HArr : forall items, Forall P items -> P (JS.Arr items).
Hypothesis HObj : forall props, P (JS.Obj props).

Fixpoint value_induction (v : JS.value) : P v :=
  match v with
  | JS.Undefined => HUndefined
  | JS.Null => HNull
  | JS.Bool b => HBool b
  | JS.Num x => HNum x
  | JS.Str s => HStr s
  | JS.Arr items =>
      HArr items
        ((fix all (l : list JS.value) : Forall P l :=
            match l with
            | [] => Forall_nil P
            | x :: l' => Forall_cons x (value_induction x) (all l')
            end) items)
  | JS.Obj props => HObj props
  end.
End ValueInduction.

Section ElementInduction.
Variable P : React.element -> Prop.
Hypothesis HChild : forall v, P (React.Child v).
Hypothesis HTag : forall t ps cs, Forall P cs -> P (React.Tag t ps cs).
Hypothesis HItems : forall l, Forall P l -> P (React.Items l).

Fixpoint element_induction (e : React.element) : P e :=
  let all :=
    fix all (l : list React.element) : Forall P l :=
      match l with
      | [] => Forall_nil P
      | x :: l' => Forall_cons x (element_induction x) (all l')
      end in
  match e with
  | React.Child v => HChild v
  | React.Tag t ps cs => HTag t ps cs (all cs)
  | React.Items l => HItems l (all l)
  end.
End ElementInduction.

(* ================================================================== *)
(** ** Properties *)

Import App.
Import Async.

(** *** The handler, case by case *)

Lemma truthy_ticker (t : string) :
  JS.truthy (JS.Str t) = true <-> t <> "".
Proof.
  cbn. rewrite negb_true_iff. apply String.eqb_neq.
Qed.

Lemma request_for_url (t : string) :
  Axios.get (analyze_url t) = Spec.request_for t.
Proof. reflexivity. Qed.

Lemma handleAnalyze_empty :
  handleAnalyze "" = setError (JS.Str validation_message).
Proof. reflexivity. Qed.

(** One invocation without a ticker: a single setter call. *)
Lemma analyze_empty (net : Axios.request -> Axios.outcome) (s : State) :
  ticker s = "" ->
  analyze net s =
  [(Called (SetError (JS.Str validation_message)),
    {| ticker := ticker s; analysis := analysis s;
       error := JS.Str validation_message; loading := loading s |})].
Proof.
  intros Ht. unfold analyze.
  replace (handleAnalyze (ticker s)) with (handleAnalyze "")
    by now rewrite Ht.
  reflexivity.
Qed.

(** One invocation with a ticker: two setter calls, the request, and two
    more setter calls that depend on how the request settles. *)
Lemma analyze_filled (net : Axios.request -> Axios.outcome) (s : State) :
  ticker s <> "" ->
  analyze net s =
  (Called (SetError JS.Null),
   {| ticker := ticker s; analysis := analysis s; error := JS.Null;
      loading := loading s |})
  :: (Called (SetLoading true), Spec.waiting s)
  :: (Requested (Spec.request_for (ticker s)), Spec.waiting s)
  :: match net (Spec.request_for (ticker s)) with
     | Axios.Resolved resp =>
         [(Called (SetAnalysis (Axios.data resp)),
           {| ticker := ticker s; analysis := Axios.data resp;
              error := JS.Null; loading := true |});
          (Called (SetLoading false),
           Spec.succeeded s (Axios.data resp))]
     | Axios.Rejected err =>
         let message :=
           JS.or_else (server_error err) (JS.Str fallback_message) in
         [(Called (SetError message),
           {| ticker := ticker s; analysis := analysis s;
              error := message; loading := true |});
          (Called (SetLoading false), Spec.failed s message)]
     end.
Proof.
  intros Ht. apply truthy_ticker in Ht.
  unfold analyze, handleAnalyze. rewrite Ht.
  cbn -[analyze_url Axios.get]. rewrite request_for_url.
  destruct (net (Spec.request_for (ticker s))); reflexivity.
Qed.

Lemma settle_ok (resp : Axios.response) :
  Axios.validate_status (Axios.status resp) = true ->
  Axios.settle (Axios.Reply resp) = Axios.Resolved resp.
Proof. intros H. cbn. now rewrite H. Qed.

Lemma settle_bad (resp : Axios.response) :
  Axios.validate_status (Axios.status resp) = false ->
  Axios.settle (Axios.Reply resp)
  = Axios.Rejected {| Axios.err_response := Some resp |}.
Proof. intros H. cbn. now rewrite H. Qed.

(** The fallback is never falsy, so neither is what the catch block
    stores. *)
Lemma or_else_fallback_truthy (v : JS.value) :
  JS.truthy (JS.or_else v (JS.Str fallback_message)) = true.
Proof.
  unfold JS.or_else. destruct (JS.truthy v) eqn:E; [exact E | reflexivity].
Qed.

(** *** Validation *)

(** C1 (as amended): for the empty ticker, [handleAnalyze] makes exactly
    one setter call, which sets [error] to the fixed validation message;
    it sends no request and never calls [setLoading]. *)
Theorem empty_ticker_is_rejected_locally
  (net : Axios.request -> Axios.outcome) (s : State) :
  ticker s = "" ->
  let t := analyze net s in
  calls t = [SetError (JS.Str "Please enter a stock ticker.")]
  /\ requests t = []
  /\ (forall b, ~ In (SetLoading b) (calls t))
  /\ error (final s t) = JS.Str "Please enter a stock ticker.".
Proof.
  intros Ht t. subst t. rewrite (analyze_empty net s Ht). cbn.
  repeat split; try reflexivity.
  intros b [H | []]. discriminate H.
Qed.

Lemma empty_ticker_is_rejected_locally_witness :
  ticker initial = ""
  /\ requests (analyze Spec.offline initial) = [].
Proof.
  split; [reflexivity |].
  apply (empty_ticker_is_rejected_locally Spec.offline initial).
  reflexivity.
Defined.

(** C1 fails as stated: a ticker made of one space is whitespace-only,
    yet it passes the check of line 12: the handler sets [loading], sends
    a request and the validation message is not shown. *)
Lemma whitespace_ticker_is_sent :
  Spec.blank " " = true
  /\ requests (analyze Spec.offline (Spec.with_ticker " "))
     = [Spec.request_for " "]
  /\ requests (analyze Spec.offline (Spec.with_ticker " ")) <> []
  /\ In (SetLoading true)
        (calls (analyze Spec.offline (Spec.with_ticker " ")))
  /\ error (final (Spec.with_ticker " ")
                  (analyze Spec.offline (Spec.with_ticker " ")))
     <> JS.Str "Please enter a stock ticker.".
Proof.
  cbn. repeat split; try discriminate.
  right. left. reflexivity.
Qed.

(** C10: without a ticker the handler changes the [error] cell and
    nothing else: [ticker], [analysis] and [loading] keep their values,
    so the analysis block on the page is the one that was there, now
    next to the validation message. *)
Theorem empty_ticker_frame
  (net : Axios.request -> Axios.outcome) (s : State) :
  ticker s = "" ->
  let s' := final s (analyze net s) in
  s' = {| ticker := ticker s; analysis := analysis s;
          error := JS.Str "Please enter a stock ticker.";
          loading := loading s |}
  /\ ticker s' = ticker s
  /\ analysis s' = analysis s
  /\ loading s' = loading s
  /\ displayed_analysis s' = displayed_analysis s
  /\ displayed_error s'
     = JS.Normal [Spec.error_paragraph "Please enter a stock ticker."].
Proof.
  intros Ht s'. subst s'. rewrite (analyze_empty net s Ht). cbn.
  repeat split; reflexivity.
Qed.

Lemma empty_ticker_frame_witness :
  ticker (Spec.succeeded initial (JS.Obj [])) = ""
  /\ analysis (final (Spec.succeeded initial (JS.Obj []))
                 (analyze Spec.offline (Spec.succeeded initial (JS.Obj []))))
     = JS.Obj [].
Proof.
  split; [reflexivity |].
  apply (empty_ticker_frame Spec.offline (Spec.succeeded initial (JS.Obj []))).
  reflexivity.
Defined.

(** *** The request and the success path *)

(** C2: with a ticker, one invocation calls [setError(null)], then
    [setLoading(true)], then sends one request, a GET to
    [http://127.0.0.1:8000/analyze/{ticker}] with no second argument (no
    parameters, headers or body); this is the only request.  When the
    reply has a 2xx status the remaining calls are [setAnalysis] with the
    body of the reply and [setLoading(false)]: [analysis] is the body,
    and [error] is not set again. *)
Theorem filled_ticker_sends_one_request
  (net : Axios.request -> Axios.outcome) (s : State) :
  ticker s <> "" ->
  let t := analyze net s in
  let req := {| Axios.verb := Axios.GET;
                Axios.url := "http://127.0.0.1:8000/analyze/" ++ ticker s;
                Axios.options := None |} in
  firstn 3 t =
    [(Called (SetError JS.Null),
      {| ticker := ticker s; analysis := analysis s; error := JS.Null;
         loading := loading s |});
     (Called (SetLoading true),
      {| ticker := ticker s; analysis := analysis s; error := JS.Null;
         loading := true |});
     (Requested req,
      {| ticker := ticker s; analysis := analysis s; error := JS.Null;
         loading := true |})]
  /\ requests t = [req]
  /\ forall resp,
       net req = Axios.settle (Axios.Reply resp) ->
       Axios.validate_status (Axios.status resp) = true ->
       skipn 3 t =
         [(Called (SetAnalysis (Axios.data resp)),
           {| ticker := ticker s; analysis := Axios.data resp;
              error := JS.Null; loading := true |});
          (Called (SetLoading false),
           {| ticker := ticker s; analysis := Axios.data resp;
              error := JS.Null; loading := false |})]
       /\ final s t =
          {| ticker := ticker s; analysis := Axios.data resp;
             error := JS.Null; loading := false |}.
Proof.
  intros Ht t req. subst t.
  rewrite (analyze_filled net s Ht).
  change (Spec.request_for (ticker s)) with req.
  split; [reflexivity |]. split.
  - destruct (net req); reflexivity.
  - intros resp Hnet Hok. rewrite Hnet, (settle_ok resp Hok).
    split; reflexivity.
Qed.

Lemma filled_ticker_sends_one_request_witness :
  ticker (Spec.with_ticker "TCS.NS") <> ""
  /\ requests (analyze (Spec.always 200 (JS.Obj []))
                       (Spec.with_ticker "TCS.NS"))
     = [{| Axios.verb := Axios.GET;
           Axios.url := "http://127.0.0.1:8000/analyze/TCS.NS";
           Axios.options := None |}].
Proof.
  split; [discriminate |].
  apply (filled_ticker_sends_one_request
           (Spec.always 200 (JS.Obj [])) (Spec.with_ticker "TCS.NS")).
  discriminate.
Defined.

(** C6 (as amended): a reply with a 2xx status resolves the request
    whatever its body is, so the handler takes the success path for
    every body: the body becomes [analysis] as it is, [error] stays
    [null], and the catch block does not run.  The catch block runs
    exactly when the request is rejected: no reply, or a status outside
    200 to 299. *)
Theorem any_2xx_body_is_accepted
  (net : Axios.request -> Axios.outcome) (s : State)
  (resp : Axios.response) :
  ticker s <> "" ->
  net (Spec.request_for (ticker s)) = Axios.settle (Axios.Reply resp) ->
  let t := analyze net s in
  (Axios.validate_status (Axios.status resp) = true ->
     calls t = [SetError JS.Null; SetLoading true;
                SetAnalysis (Axios.data resp); SetLoading false]
     /\ analysis (final s t) = Axios.data resp
     /\ error (final s t) = JS.Null)
  /\ (Axios.validate_status (Axios.status resp) = false ->
     calls t = [SetError JS.Null; SetLoading true;
                SetError (JS.or_else (JS.get_opt (Axios.data resp) "error")
                                     (JS.Str "An error occurred."));
                SetLoading false]
     /\ analysis (final s t) = analysis s).
Proof.
  intros Ht Hnet t. subst t.
  rewrite (analyze_filled net s Ht), Hnet.
  split; intros Hst.
  - rewrite (settle_ok resp Hst). repeat split; reflexivity.
  - rewrite (settle_bad resp Hst). repeat split; reflexivity.
Qed.

Lemma any_2xx_body_is_accepted_witness :
  ticker (Spec.with_ticker "TCS.NS") <> ""
  /\ Spec.always 200 (JS.Str "<html>") (Spec.request_for "TCS.NS")
     = Axios.settle (Axios.Reply {| Axios.status := 200;
                                    Axios.data := JS.Str "<html>" |})
  /\ analysis (final (Spec.with_ticker "TCS.NS")
                 (analyze (Spec.always 200 (JS.Str "<html>"))
                          (Spec.with_ticker "TCS.NS")))
     = JS.Str "<html>".
Proof.
  split; [discriminate |]. split; [reflexivity |].
  apply (any_2xx_body_is_accepted
           (Spec.always 200 (JS.Str "<html>")) (Spec.with_ticker "TCS.NS")
           {| Axios.status := 200; Axios.data := JS.Str "<html>" |});
    [discriminate | reflexivity | reflexivity].
Defined.

(** C6 fails as stated: a 200 reply whose body is [{ error: "Ticker not
    found" }] has none of the expected fields, yet the handler stores it
    as the analysis; [error] stays [null], neither the server's text nor
    the fallback is shown, and rendering the stored body throws. *)
Lemma malformed_2xx_body_becomes_analysis :
  Axios.validate_status 200 = true
  /\ analysis (final (Spec.with_ticker "TCS.NS")
       (analyze
          (Spec.always 200 (JS.Obj [("error", JS.Str "Ticker not found")]))
          (Spec.with_ticker "TCS.NS")))
     = JS.Obj [("error", JS.Str "Ticker not found")]
  /\ error (final (Spec.with_ticker "TCS.NS")
       (analyze
          (Spec.always 200 (JS.Obj [("error", JS.Str "Ticker not found")]))
          (Spec.with_ticker "TCS.NS")))
     = JS.Null
  /\ error (final (Spec.with_ticker "TCS.NS")
       (analyze
          (Spec.always 200 (JS.Obj [("error", JS.Str "Ticker not found")]))
          (Spec.with_ticker "TCS.NS")))
     <> JS.Str "Ticker not found"
  /\ error (final (Spec.with_ticker "TCS.NS")
       (analyze
          (Spec.always 200 (JS.Obj [("error", JS.Str "Ticker not found")]))
          (Spec.with_ticker "TCS.NS")))
     <> JS.Str "An error occurred."
  /\ render (final (Spec.with_ticker "TCS.NS")
       (analyze
          (Spec.always 200 (JS.Obj [("error", JS.Str "Ticker not found")]))
          (Spec.with_ticker "TCS.NS")))
     = JS.Throws JS.TypeError.
Proof.
  cbn. repeat split; discriminate.
Qed.

(** *** The failure path *)

Lemma analyze_rejected (net : Axios.request -> Axios.outcome) (s : State)
  (err : Axios.error) :
  ticker s <> "" ->
  Spec.fails_with net s err ->
  final s (analyze net s)
  = Spec.failed s (JS.or_else (server_error err) (JS.Str fallback_message))
  /\ calls (analyze net s)
     = [SetError JS.Null; SetLoading true;
        SetError (JS.or_else (server_error err) (JS.Str fallback_message));
        SetLoading false].
Proof.
  intros Ht Hnet. unfold Spec.fails_with in Hnet.
  rewrite (analyze_filled net s Ht), Hnet. split; reflexivity.
Qed.

Lemma no_parsed_body_no_field (err : Axios.error) :
  Spec.no_parsed_body err = true -> server_error err = JS.Undefined.
Proof.
  unfold Spec.no_parsed_body, server_error.
  destruct (Axios.err_response err) as [resp |]; [| reflexivity].
  destruct (Axios.data resp); try discriminate; reflexivity.
Qed.

Lemma displayed_text (s : State) (msg : string) :
  error s = JS.Str msg -> msg <> "" ->
  displayed_error s = JS.Normal [Spec.error_paragraph msg].
Proof.
  intros He Hm. unfold displayed_error, error_part. rewrite He.
  apply truthy_ticker in Hm as Ht. rewrite Ht. cbn.
  apply String.eqb_neq in Hm. now rewrite Hm.
Qed.

(** C3 (as amended): when the request is rejected, the error shown is
    the [error] field of the rejection's body whenever that field is a
    non-empty string (exactly "Ticker not found" for the body
    [{ error: "Ticker not found" }]), and exactly "An error occurred."
    when the rejection carries no parsed body. *)
Theorem rejection_shows_server_text_or_fallback
  (net : Axios.request -> Axios.outcome) (s : State) (err : Axios.error) :
  ticker s <> "" ->
  Spec.fails_with net s err ->
  let s' := final s (analyze net s) in
  (forall msg,
     server_error err = JS.Str msg -> msg <> "" ->
     error s' = JS.Str msg
     /\ displayed_error s' = JS.Normal [Spec.error_paragraph msg])
  /\ (Spec.no_parsed_body err = true ->
      error s' = JS.Str "An error occurred."
      /\ displayed_error s'
         = JS.Normal [Spec.error_paragraph "An error occurred."]).
Proof.
  intros Ht Hnet s'. subst s'.
  destruct (analyze_rejected net s err Ht Hnet) as [-> _].
  split.
  - intros msg Hmsg Hne.
    assert (He : error (Spec.failed s (JS.or_else (server_error err)
                          (JS.Str fallback_message))) = JS.Str msg).
    { cbn. unfold JS.or_else. rewrite Hmsg.
      apply truthy_ticker in Hne. now rewrite Hne. }
    split; [exact He | now apply displayed_text].
  - intros Hnone. rewrite (no_parsed_body_no_field err Hnone).
    split; reflexivity.
Qed.

Lemma rejection_shows_server_text_or_fallback_witness :
  ticker (Spec.with_ticker "NOPE") <> ""
  /\ Spec.fails_with
       (Spec.always 404 (JS.Obj [("error", JS.Str "Ticker not found")]))
       (Spec.with_ticker "NOPE")
       {| Axios.err_response :=
            Some {| Axios.status := 404;
                    Axios.data :=
                      JS.Obj [("error", JS.Str "Ticker not found")] |} |}
  /\ displayed_error
       (final (Spec.with_ticker "NOPE")
          (analyze
             (Spec.always 404
                (JS.Obj [("error", JS.Str "Ticker not found")]))
             (Spec.with_ticker "NOPE")))
     = JS.Normal [Spec.error_paragraph "Ticker not found"].
Proof.
  split; [discriminate |]. split; [reflexivity |].
  apply (rejection_shows_server_text_or_fallback
           (Spec.always 404 (JS.Obj [("error", JS.Str "Ticker not found")]))
           (Spec.with_ticker "NOPE")
           {| Axios.err_response :=
                Some {| Axios.status := 404;
                        Axios.data :=
                          JS.Obj [("error", JS.Str "Ticker not found")] |} |});
    [discriminate | reflexivity | reflexivity | discriminate].
Defined.

(** C3 fails as stated: the body [{ error: "" }] of a 404 reply contains
    an error field, and the text shown is not that field but the
    fallback. *)
Lemma empty_server_text_is_replaced :
  Spec.fails_with (Spec.always 404 (JS.Obj [("error", JS.Str "")]))
    (Spec.with_ticker "NOPE")
    {| Axios.err_response :=
         Some {| Axios.status := 404;
                 Axios.data := JS.Obj [("error", JS.Str "")] |} |}
  /\ server_error
       {| Axios.err_response :=
            Some {| Axios.status := 404;
                    Axios.data := JS.Obj [("error", JS.Str "")] |} |}
     = JS.Str ""
  /\ error (final (Spec.with_ticker "NOPE")
              (analyze (Spec.always 404 (JS.Obj [("error", JS.Str "")]))
                       (Spec.with_ticker "NOPE")))
     <> JS.Str ""
  /\ displayed_error
       (final (Spec.with_ticker "NOPE")
          (analyze (Spec.always 404 (JS.Obj [("error", JS.Str "")]))
                   (Spec.with_ticker "NOPE")))
     = JS.Normal [Spec.error_paragraph "An error occurred."].
Proof.
  cbn. repeat split; discriminate.
Qed.

(** C9: when the request is rejected and the [error] field of its body
    is falsy (the empty string, [0], [false], [null]), the error shown
    is "An error occurred.": the fallback is chosen by the truthiness of
    the field, not by its presence. *)
Theorem falsy_server_text_gives_fallback
  (net : Axios.request -> Axios.outcome) (s : State) (err : Axios.error) :
  ticker s <> "" ->
  Spec.fails_with net s err ->
  JS.truthy (server_error err) = false ->
  error (final s (analyze net s)) = JS.Str "An error occurred."
  /\ displayed_error (final s (analyze net s))
     = JS.Normal [Spec.error_paragraph "An error occurred."].
Proof.
  intros Ht Hnet Hfalsy.
  destruct (analyze_rejected net s err Ht Hnet) as [-> _].
  cbn. unfold JS.or_else. rewrite Hfalsy. split; reflexivity.
Qed.

Lemma falsy_server_text_gives_fallback_witness :
  ticker (Spec.with_ticker "NOPE") <> ""
  /\ Spec.fails_with (Spec.always 500 (JS.Obj [("error", JS.Str "")]))
       (Spec.with_ticker "NOPE")
       {| Axios.err_response :=
            Some {| Axios.status := 500;
                    Axios.data := JS.Obj [("error", JS.Str "")] |} |}
  /\ JS.truthy (JS.Str "") = false
  /\ error (final (Spec.with_ticker "NOPE")
              (analyze (Spec.always 500 (JS.Obj [("error", JS.Str "")]))
                       (Spec.with_ticker "NOPE")))
     = JS.Str "An error occurred.".
Proof.
  split; [discriminate |]. split; [reflexivity |]. split; [reflexivity |].
  apply (falsy_server_text_gives_fallback
           (Spec.always 500 (JS.Obj [("error", JS.Str "")]))
           (Spec.with_ticker "NOPE")
           {| Axios.err_response :=
                Some {| Axios.status := 500;
                        Axios.data := JS.Obj [("error", JS.Str "")] |} |});
    [discriminate | reflexivity | reflexivity].
Defined.

(** C4: a failing invocation, whether it stops at validation or its
    request is rejected, never calls [setAnalysis]: [analysis] keeps its
    value and the analysis block of the page is unchanged, while a new
    error is shown. *)
Theorem failure_keeps_analysis
  (net : Axios.request -> Axios.outcome) (s : State) :
  (ticker s = "" \/ exists err, Spec.fails_with net s err) ->
  let s' := final s (analyze net s) in
  analysis s' = analysis s
  /\ (forall v, ~ In (SetAnalysis v) (calls (analyze net s)))
  /\ displayed_analysis s' = displayed_analysis s
  /\ JS.truthy (error s') = true.
Proof.
  intros H s'. subst s'.
  destruct (string_dec (ticker s) "") as [Ht | Ht].
  - rewrite (analyze_empty net s Ht). cbn.
    repeat split; try reflexivity.
    intros v [Hv | []]. discriminate Hv.
  - destruct H as [Hc | [err Hnet]]; [contradiction |].
    destruct (analyze_rejected net s err Ht Hnet) as [-> ->].
    repeat split; try reflexivity.
    + intros v Hin. cbn in Hin.
      repeat (destruct Hin as [Hin | Hin]; [discriminate Hin |]).
      exact Hin.
    + apply or_else_fallback_truthy.
Qed.

Lemma failure_keeps_analysis_witness :
  (ticker (Spec.succeeded (Spec.with_ticker "TCS.NS") Spec.sample_body) = ""
   \/ exists err,
        Spec.fails_with Spec.offline
          (Spec.succeeded (Spec.with_ticker "TCS.NS") Spec.sample_body) err)
  /\ analysis
       (final (Spec.succeeded (Spec.with_ticker "TCS.NS") Spec.sample_body)
          (analyze Spec.offline
             (Spec.succeeded (Spec.with_ticker "TCS.NS") Spec.sample_body)))
     = Spec.sample_body.
Proof.
  assert (H : ticker (Spec.succeeded (Spec.with_ticker "TCS.NS")
                        Spec.sample_body) = ""
              \/ exists err,
                   Spec.fails_with Spec.offline
                     (Spec.succeeded (Spec.with_ticker "TCS.NS")
                        Spec.sample_body) err).
  { right. exists {| Axios.err_response := None |}. reflexivity. }
  split; [exact H |].
  apply (failure_keeps_analysis Spec.offline
           (Spec.succeeded (Spec.with_ticker "TCS.NS") Spec.sample_body) H).
Defined.

(** *** Repeating a request, and what is rendered *)

(** C8: when the same request succeeds twice in a row with the same
    body, the second invocation sends the same request and ends in the
    state the first one ended in, so the page rendered after the second
    is the page rendered after the first. *)
Theorem repeated_success_is_idempotent
  (net : Axios.request -> Axios.outcome) (s : State)
  (resp : Axios.response) :
  ticker s <> "" ->
  net (Spec.request_for (ticker s)) = Axios.Resolved resp ->
  let s1 := final s (analyze net s) in
  let s2 := final s1 (analyze net s1) in
  requests (analyze net s1) = requests (analyze net s)
  /\ s1 = Spec.succeeded s (Axios.data resp)
  /\ s2 = s1
  /\ render s2 = render s1.
Proof.
  intros Ht Hnet s1 s2.
  assert (H1 : s1 = Spec.succeeded s (Axios.data resp)).
  { subst s1. rewrite (analyze_filled net s Ht), Hnet. reflexivity. }
  assert (Ht1 : ticker s1 <> "") by (rewrite H1; exact Ht).
  assert (Hnet1 : net (Spec.request_for (ticker s1)) = Axios.Resolved resp)
    by (rewrite H1; exact Hnet).
  assert (H2 : s2 = s1).
  { subst s2. rewrite (analyze_filled net s1 Ht1), Hnet1.
    rewrite H1. reflexivity. }
  repeat split.
  - rewrite (analyze_filled net s1 Ht1), (analyze_filled net s Ht).
    rewrite Hnet1, Hnet, H1. reflexivity.
  - exact H1.
  - exact H2.
  - now rewrite H2.
Qed.

Lemma repeated_success_is_idempotent_witness :
  ticker (Spec.with_ticker "RELIANCE.NS") <> ""
  /\ Spec.always 200 Spec.sample_body (Spec.request_for "RELIANCE.NS")
     = Axios.Resolved {| Axios.status := 200;
                         Axios.data := Spec.sample_body |}
  /\ final
       (final (Spec.with_ticker "RELIANCE.NS")
          (analyze (Spec.always 200 Spec.sample_body)
             (Spec.with_ticker "RELIANCE.NS")))
       (analyze (Spec.always 200 Spec.sample_body)
          (final (Spec.with_ticker "RELIANCE.NS")
             (analyze (Spec.always 200 Spec.sample_body)
                (Spec.with_ticker "RELIANCE.NS"))))
     = final (Spec.with_ticker "RELIANCE.NS")
         (analyze (Spec.always 200 Spec.sample_body)
            (Spec.with_ticker "RELIANCE.NS")).
Proof.
  split; [discriminate |]. split; [reflexivity |].
  apply (repeated_success_is_idempotent
           (Spec.always 200 Spec.sample_body)
           (Spec.with_ticker "RELIANCE.NS")
           {| Axios.status := 200; Axios.data := Spec.sample_body |});
    [discriminate | reflexivity].
Defined.

(** C7: after a successful analysis of the ticker "RELIANCE.NS" whose
    reply has the body of the running example, whatever the state was
    before, the page renders and contains one heading with the text
    "Risk Analysis for RELIANCE.NS", one list item, with the text
    "volatility: 0.23" (the metrics of the body, in the order of the
    object received), the text "High", and one image whose source is
    [data:image/png;base64,iVBORw0KG...]. *)
Theorem sample_analysis_is_rendered
  (before : JS.value) (shown : JS.value) (busy : bool) :
  exists page,
    render
      (final
         {| ticker := "RELIANCE.NS"; analysis := before; error := shown;
            loading := busy |}
         (analyze (Spec.always 200 Spec.sample_body)
            {| ticker := "RELIANCE.NS"; analysis := before; error := shown;
               loading := busy |}))
    = JS.Normal page
    /\ map React.text_content (React.by_tag "h2" page)
       = ["Risk Analysis for RELIANCE.NS"]
    /\ map React.text_content (React.by_tag "li" page)
       = ["volatility: 0.23"]
    /\ In (React.Text "High") (flat_map React.descendants page)
    /\ map (React.attribute "src") (React.by_tag "img" page)
       = [Some (React.Val (JS.Str "data:image/png;base64,iVBORw0KG..."))].
Proof.
  eexists. split; [reflexivity |].
  split; [reflexivity |]. split; [reflexivity |]. split; [| reflexivity].
  cbn. intuition.
Qed.

(** *** The loading flag *)

Lemma click_filled (s : State) :
  ticker s <> "" ->
  exists k,
    advance apply (handleAnalyze (ticker s)) s
    = (Spec.waiting s, Suspended (Spec.request_for (ticker s)) k)
    /\ Spec.finishes k.
Proof.
  intros Ht. apply truthy_ticker in Ht.
  unfold handleAnalyze. rewrite Ht. cbn.
  eexists. split; [reflexivity |].
  intros out s'. destruct out as [resp | err]; cbn.
  - exists (SetAnalysis (Axios.data resp)). split; reflexivity.
  - exists (SetError (JS.or_else (server_error err)
                                 (JS.Str fallback_message))).
    split; reflexivity.
Qed.

Lemma click_empty (s : State) :
  ticker s = "" ->
  advance apply (handleAnalyze (ticker s)) s
  = ({| ticker := ticker s; analysis := analysis s;
        error := JS.Str validation_message; loading := loading s |},
     Finished).
Proof.
  intros Ht.
  replace (handleAnalyze (ticker s)) with (handleAnalyze "")
    by now rewrite Ht.
  reflexivity.
Qed.

Lemma step_consistent (c : page) (i : input) :
  Spec.consistent c -> Spec.consistent (step c i).
Proof.
  intros Hc. destruct i as [t | | n out]; cbn.
  - (* typing changes the ticker only *)
    destruct Hc as [[Hq Hl] | (r & k & Hq & Hl & Hk)].
    + left. split; assumption.
    + right. exists r, k. split; [| split]; assumption.
  - (* a click *)
    destruct (loading (state c)) eqn:Hl; [exact Hc |].
    destruct Hc as [[Hq _] | (r & k & _ & Hl' & _)]; [| congruence].
    unfold resume.
    destruct (string_dec (ticker (state c)) "") as [Ht | Ht].
    + rewrite (click_empty _ Ht). left. split; assumption.
    + destruct (click_filled _ Ht) as (k & -> & Hk).
      right. exists (Spec.request_for (ticker (state c))), k.
      rewrite Hq. split; [reflexivity | split; [reflexivity | exact Hk]].
  - (* a request settles *)
    destruct Hc as [[Hq Hl] | (r & k & Hq & Hl & Hk)].
    + rewrite Hq. destruct n; cbn; left; split; assumption.
    + rewrite Hq. destruct n as [| n]; cbn.
      * unfold resume. cbn.
        destruct (Hk out (state c)) as (o & -> & _).
        left. split; reflexivity.
      * destruct n; cbn; right; exists r, k; (split; [| split]); assumption.
Qed.

Lemma run_consistent (inputs : list input) (c : page) :
  Spec.consistent c -> Spec.consistent (run c inputs).
Proof.
  revert c. induction inputs as [| i rest IH]; intros c Hc; cbn.
  - exact Hc.
  - apply IH, step_consistent, Hc.
Qed.

Lemma start_consistent : Spec.consistent start.
Proof. left. split; reflexivity. Qed.

(** C5: [loading] is true exactly while a request is in flight.  On the
    page, after any sequence of inputs, [loading] is true if and only if
    a request has not settled yet, and there is at most one; a click
    that passes validation makes [loading] true and puts the request in
    flight; settling the request, whatever the outcome, makes [loading]
    false.  Inside one invocation, [loading] is true in every state from
    the call [setLoading(true)] up to the last call, and the last call
    is [setLoading(false)] on the success path and on the failure path
    alike. *)
Theorem loading_spans_the_request :
  (forall inputs : list input,
     let c := run start inputs in
     (loading (state c) = true <-> inflight c <> [])
     /\ length (inflight c) <= 1
     /\ (loading (state c) = false -> ticker (state c) <> "" ->
         loading (state (step c Click)) = true
         /\ map fst (inflight (step c Click))
            = [Spec.request_for (ticker (state c))])
     /\ (loading (state c) = true ->
         forall out,
           loading (state (step c (Settled 0 out))) = false
           /\ inflight (step c (Settled 0 out)) = []))
  /\ (forall (net : Axios.request -> Axios.outcome) (s : State),
       ticker s <> "" ->
       exists o mid,
         analyze net s =
           [(Called (SetError JS.Null),
             {| ticker := ticker s; analysis := analysis s;
                error := JS.Null; loading := loading s |});
            (Called (SetLoading true), Spec.waiting s);
            (Requested (Spec.request_for (ticker s)), Spec.waiting s);
            (Called o, mid);
            (Called (SetLoading false),
             {| ticker := ticker mid; analysis := analysis mid;
                error := error mid; loading := false |})]
         /\ loading (Spec.waiting s) = true
         /\ loading mid = true).
Proof.
  split.
  - intros inputs c.
    pose proof (run_consistent inputs start start_consistent) as Hc.
    fold c in Hc.
    destruct Hc as [[Hq Hl] | (r & k & Hq & Hl & Hk)].
    + split; [| split; [| split]].
      * rewrite Hl, Hq. split; [discriminate | congruence].
      * rewrite Hq. cbn. lia.
      * intros _ Ht. cbn. rewrite Hl. unfold resume.
        destruct (click_filled _ Ht) as (k & -> & _). cbn.
        rewrite Hq. split; reflexivity.
      * congruence.
    + split; [| split; [| split]].
      * rewrite Hl, Hq. split; [discriminate | reflexivity].
      * rewrite Hq. cbn. lia.
      * congruence.
      * intros _ out. cbn. rewrite Hq. cbn. unfold resume. cbn.
        destruct (Hk out (state c)) as (o & -> & _).
        split; reflexivity.
  - intros net s Ht. rewrite (analyze_filled net s Ht).
    destruct (net (Spec.request_for (ticker s))) as [resp | err].
    + exists (SetAnalysis (Axios.data resp)),
        {| ticker := ticker s; analysis := Axios.data resp;
           error := JS.Null; loading := true |}.
      split; [reflexivity | split; reflexivity].
    + exists (SetError (JS.or_else (server_error err)
                                   (JS.Str fallback_message))),
        {| ticker := ticker s; analysis := analysis s;
           error := JS.or_else (server_error err)
                               (JS.Str fallback_message);
           loading := true |}.
      split; [reflexivity | split; reflexivity].
Qed.

Lemma loading_spans_the_request_witness :
  loading (state (run start [Typed "TCS.NS"])) = false
  /\ ticker (state (run start [Typed "TCS.NS"])) <> ""
  /\ loading (state (step (run start [Typed "TCS.NS"]) Click)) = true
  /\ loading (state (run start [Typed "TCS.NS"; Click])) = true
  /\ loading
       (state (step (run start [Typed "TCS.NS"; Click])
                 (Settled 0 (Spec.offline (Spec.request_for "TCS.NS")))))
     = false.
Proof.
  destruct loading_spans_the_request as [Hpage _].
  pose proof (Hpage [Typed "TCS.NS"]) as (_ & _ & Hclick & _).
  pose proof (Hpage [Typed "TCS.NS"; Click]) as (_ & _ & _ & Hsettle).
  split; [reflexivity |]. split; [discriminate |].
  split; [apply Hclick; [reflexivity | discriminate] |].
  split; [reflexivity |].
  apply Hsettle. reflexivity.
Defined.

(** *** Supporting facts about the embedding *)

(** An object whose keys are not array indices is listed in the order
    its properties were created. *)
Lemma entries_in_insertion_order (props : list (string * JS.value)) :
  forallb (fun p => negb (JS.is_index (fst p))) props = true ->
  JS.entries (JS.Obj props) = JS.Normal props.
Proof.
  intros H. cbn. unfold JS.own_property_order. f_equal.
  assert (Hnone : filter (fun p => JS.is_index (fst p)) props = []
                  /\ filter (fun p => negb (JS.is_index (fst p))) props
                     = props).
  { induction props as [| p rest IH]; [split; reflexivity |].
    cbn in H. apply andb_true_iff in H as [Hp Hrest].
    destruct (IH Hrest) as [IH1 IH2].
    cbn. rewrite Hp. apply negb_true_iff in Hp. rewrite Hp.
    split; [exact IH1 | now rewrite IH2]. }
  destruct Hnone as [-> ->]. reflexivity.
Qed.

(** The keys that are not array indices keep their relative order in
    every object. *)
Lemma entries_keep_named_keys (props : list (string * JS.value)) :
  exists indexed,
    JS.entries (JS.Obj props)
    = JS.Normal
        (indexed
         ++ filter (fun p => negb (JS.is_index (fst p))) props)%list.
Proof. eexists. reflexivity. Qed.

Example number_to_string_samples :
  map JS.number_to_string
    [JS.Fin false 23 0; JS.Fin false 15 2; JS.Fin true 1 3;
     JS.Fin false 1 22; JS.Fin false 12345 2; JS.Fin false 1 (-6);
     JS.Fin false 15 (-6); JS.Zero true; JS.NaN]
  = ["0.23"; "15"; "-100"; "1e+21"; "12.345"; "1e-7"; "1.5e-7"; "0";
     "NaN"].
Proof. reflexivity. Qed.

Example entries_index_keys_first :
  JS.entries
    (JS.Obj [("b", JS.Null); ("10", JS.Null); ("2", JS.Null);
             ("01", JS.Null); ("a", JS.Null)])
  = JS.Normal [("2", JS.Null); ("10", JS.Null); ("b", JS.Null);
               ("01", JS.Null); ("a", JS.Null)].
Proof. reflexivity. Qed.

Example stringify_sample :
  JS.stringify (JS.Obj [("risk_category", JS.Str "High")])
  = Some ("{" ++ JS.newline ++ "  " ++ JS.dquote ++ "risk_category"
          ++ JS.dquote ++ ": " ++ JS.dquote ++ "High" ++ JS.dquote
          ++ JS.newline ++ "}").
Proof. reflexivity. Qed.

(** A stale analysis stays on the page next to a new error. *)
Example stale_analysis_next_to_error :
  exists page,
    render
      (final (Spec.succeeded (Spec.with_ticker "TCS.NS") Spec.sample_body)
         (analyze Spec.offline
            (Spec.succeeded (Spec.with_ticker "TCS.NS") Spec.sample_body)))
    = JS.Normal page
    /\ map React.text_content (React.by_tag "p" page)
       = ["An error occurred."; "Risk Category: High"]
    /\ map React.text_content (React.by_tag "h2" page)
       = ["Risk Analysis for TCS.NS"].
Proof.
  eexists. split; [reflexivity |]. split; reflexivity.
Qed.

(** Two clicks in a row: the second one finds the button disabled. *)
Example second_click_is_ignored :
  map fst (inflight (run start [Typed "TCS.NS"; Click; Click]))
  = [Spec.request_for "TCS.NS"].
Proof. reflexivity. Qed.

(* ================================================================== *)
(** ** Further properties of the component *)

(** *** Trees *)

Lemma descendants_element (t : string) (ps : list (string * React.prop))
  (cs : list React.node) :
  React.descendants (React.Element t ps cs)
  = React.Element t ps cs :: flat_map React.descendants cs.
Proof.
  reflexivity.
Qed.

Lemma by_tag_app (t : string) (a b : list React.node) :
  React.by_tag t (a ++ b) = (React.by_tag t a ++ React.by_tag t b)%list.
Proof.
  unfold React.by_tag. now rewrite flat_map_app, filter_app.
Qed.

Lemma by_tag_cons (t : string) (n : React.node) (rest : list React.node) :
  React.by_tag t (n :: rest)
  = (React.by_tag t [n] ++ React.by_tag t rest)%list.
Proof. apply (by_tag_app t [n] rest). Qed.

Lemma by_tag_element (t t' : string) (ps : list (string * React.prop))
  (cs : list React.node) :
  React.by_tag t [React.Element t' ps cs]
  = ((if String.eqb t t' then [React.Element t' ps cs] else [])
     ++ React.by_tag t cs)%list.
Proof.
  unfold React.by_tag.
  change (flat_map React.descendants [React.Element t' ps cs])
    with (React.descendants (React.Element t' ps cs) ++ [])%list.
  rewrite app_nil_r, descendants_element. cbn.
  destruct (String.eqb t t'); reflexivity.
Qed.

Lemma by_tag_texts (t : string) (ns : list React.node) :
  Forall (fun n => Shape.is_text n = true) ns -> React.by_tag t ns = [].
Proof.
  induction 1 as [| n rest Hn _ IH]; [reflexivity |].
  rewrite by_tag_cons, IH, app_nil_r.
  destruct n; [reflexivity | discriminate Hn].
Qed.

Lemma mount_value_texts (v : JS.value) :
  forall ns, React.mount_value v = JS.Normal ns ->
             Forall (fun n => Shape.is_text n = true) ns.
Proof.
  induction v as [| | b | x | s | items IH | props] using value_induction;
    intros ns H; cbn in H.
  - injection H as <-. constructor.
  - injection H as <-. constructor.
  - injection H as <-. constructor.
  - injection H as <-. repeat constructor.
  - injection H as <-. destruct (String.eqb s ""); repeat constructor.
  - revert ns H. induction IH as [| v rest Hv _ IHrest]; intros ns H.
    + injection H as <-. constructor.
    + destruct (React.mount_value v) as [a | e]; [| discriminate H].
      cbn in H.
      match type of H with
      | JS.cbind ?m _ = _ => destruct m as [b | e] eqn:Hb
      end; [| discriminate H].
      injection H as <-. apply Forall_app. split.
      * now apply Hv.
      * now apply IHrest.
  - discriminate H.
Qed.

Lemma mount_tag (t : string) (ps : list (string * React.prop))
  (cs : list React.element) :
  React.mount (React.Tag t ps cs)
  = JS.cbind (React.mount (React.Items cs))
      (fun ns => JS.Normal [React.Element t ps ns]).
Proof. reflexivity. Qed.

Lemma mount_items_cons (x : React.element) (l : list React.element) :
  React.mount (React.Items (x :: l))
  = JS.cbind (React.mount x) (fun ns =>
    JS.cbind (React.mount (React.Items l)) (fun ms =>
    JS.Normal (ns ++ ms)%list)).
Proof. reflexivity. Qed.

Lemma mentions_items_cons (t : string) (x : React.element)
  (l : list React.element) :
  Shape.mentions t (React.Items (x :: l))
  = Shape.mentions t x || Shape.mentions t (React.Items l).
Proof. reflexivity. Qed.

Lemma mentions_tag (t t' : string) (ps : list (string * React.prop))
  (cs : list React.element) :
  Shape.mentions t (React.Tag t' ps cs)
  = String.eqb t t' || Shape.mentions t (React.Items cs).
Proof. reflexivity. Qed.

Lemma mount_items_no_tag (t : string) (l : list React.element) :
  Forall (fun e => Shape.mentions t e = false ->
                   forall ns, React.mount e = JS.Normal ns ->
                              React.by_tag t ns = []) l ->
  Shape.mentions t (React.Items l) = false ->
  forall ns, React.mount (React.Items l) = JS.Normal ns ->
             React.by_tag t ns = [].
Proof.
  induction 1 as [| x rest Hx _ IH]; intros Hm ns H.
  - injection H as <-. reflexivity.
  - rewrite mentions_items_cons in Hm.
    apply orb_false_iff in Hm as [Hmx Hmrest].
    rewrite mount_items_cons in H.
    destruct (React.mount x) as [a | e]; [| discriminate H].
    cbn [JS.cbind] in H.
    destruct (React.mount (React.Items rest)) as [b | e];
      [| discriminate H].
    cbn [JS.cbind] in H.
    injection H as <-. rewrite by_tag_app.
    rewrite (Hx Hmx a eq_refl), (IH Hmrest b eq_refl). reflexivity.
Qed.

(** Mounting an element tree that has no tag [t] yields no node with
    tag [t]: values only ever become text. *)
Lemma mount_no_tag (t : string) (e : React.element) :
  Shape.mentions t e = false ->
  forall ns, React.mount e = JS.Normal ns -> React.by_tag t ns = [].
Proof.
  induction e as [v | t' ps cs IH | l IH] using element_induction;
    intros Hm ns H.
  - apply by_tag_texts, (mount_value_texts v). exact H.
  - rewrite mentions_tag in Hm. apply orb_false_iff in Hm as [Ht Hcs].
    rewrite mount_tag in H.
    destruct (React.mount (React.Items cs)) as [a | e] eqn:Ha;
      [| discriminate H].
    cbn [JS.cbind] in H.
    injection H as <-. rewrite by_tag_element, Ht.
    apply (mount_items_no_tag t cs IH Hcs a Ha).
  - apply (mount_items_no_tag t l IH Hm ns H).
Qed.

Lemma mentions_metric_items (t : string)
  (pairs : list (string * JS.value)) :
  String.eqb t "li" = false ->
  Shape.mentions t (React.Items (map metric_item pairs)) = false.
Proof.
  intros Ht. induction pairs as [| kv rest IH]; [reflexivity |].
  cbn [map]. rewrite mentions_items_cons, IH, orb_false_r.
  unfold metric_item. rewrite mentions_tag, Ht. reflexivity.
Qed.

Lemma truthy_not_nullish (v : JS.value) :
  JS.truthy v = true -> JS.nullish v = false.
Proof. destruct v; cbn; congruence. Qed.

(** The nodes of the heading: the literal text, then the ticker in upper
    case (no text node for an empty ticker). *)
Lemma mount_heading (t : string) :
  React.mount
    (React.Tag "h2" []
       [text "Risk Analysis for "; text (JS.to_upper_case t)])
  = JS.Normal
      [React.Element "h2" []
         (React.Text "Risk Analysis for "
          :: if String.eqb (JS.to_upper_case t) "" then []
             else [React.Text (JS.to_upper_case t)])].
Proof.
  cbn. destruct (String.eqb (JS.to_upper_case t) ""); reflexivity.
Qed.

(** *** The shape of the page *)

(** When the analysis block renders, it is the fixed frame of lines 45 to
    64 around four parts that come from the data. *)
Lemma analysis_block_shape (t : string) (a : JS.value)
  (blk : list React.node) :
  JS.truthy a = true ->
  JS.cbind (analysis_part t a) React.mount = JS.Normal blk ->
  exists pairs rs lis pre,
    JS.nullish (JS.own a "analysis") = false
    /\ JS.entries (JS.own a "metrics") = JS.Normal pairs
    /\ React.mount_value (JS.own (JS.own a "analysis") "risk_category")
       = JS.Normal rs
    /\ React.mount (React.Items (map metric_item pairs)) = JS.Normal lis
    /\ React.mount_value (stringified (JS.own a "analysis"))
       = JS.Normal pre
    /\ blk = [Shape.block_node t rs lis pre (JS.own a "plot")].
Proof.
  intros Ht H. unfold analysis_part in H. rewrite Ht in H.
  unfold JS.get in H. rewrite (truthy_not_nullish a Ht) in H.
  cbn [JS.cbind] in H.
  destruct (JS.nullish (JS.own a "analysis")) eqn:Hin; [discriminate H |].
  cbn [JS.cbind] in H.
  destruct (JS.entries (JS.own a "metrics")) as [pairs | e] eqn:Hent;
    [| discriminate H].
  cbn [JS.cbind] in H.
  remember (React.Items (map metric_item pairs)) as items eqn:Hitems.
  remember (JS.own (JS.own a "analysis") "risk_category") as risk.
  remember (stringified (JS.own a "analysis")) as json.
  remember (JS.own a "plot") as plot.
  cbn in H.
  destruct (React.mount_value risk) as [rs | e] eqn:Hrs;
    [| discriminate H].
  destruct (React.mount items) as [lis | e] eqn:Hlis; [| discriminate H].
  destruct (React.mount_value json) as [pre | e] eqn:Hpre;
    [| discriminate H].
  cbn in H. injection H as <-. rewrite !app_nil_r.
  subst items risk json plot.
  exists pairs, rs, lis, pre.
  split; [reflexivity |]. split; [reflexivity |].
  split; [first [exact Hrs | reflexivity] |].
  split; [first [exact Hlis | reflexivity] |].
  split; [first [exact Hpre | reflexivity] |].
  reflexivity.
Qed.

Lemma falsy_block (t : string) (a : JS.value) :
  JS.truthy a = false ->
  JS.cbind (analysis_part t a) React.mount = React.mount_value a.
Proof.
  intros Hf. unfold analysis_part. rewrite Hf. reflexivity.
Qed.

(** A page that renders is the fixed frame of lines 31 to 42 around the
    error part and the analysis part. *)
Lemma render_shape (s : State) (page : list React.node) :
  render s = JS.Normal page ->
  exists errs blk,
    displayed_error s = JS.Normal errs
    /\ displayed_analysis s = JS.Normal blk
    /\ page =
       [React.Element "div" [("className", React.Val (JS.Str "App"))]
          [React.Element "header"
             [("className", React.Val (JS.Str "App-header"))]
             (Shape.title_node :: Shape.input_node s
              :: Shape.button_node s :: errs ++ blk)%list]].
Proof.
  unfold render, view, displayed_error, displayed_analysis. intros H.
  destruct (analysis_part (ticker s) (analysis s)) as [part | e];
    [| discriminate H].
  cbn [JS.cbind] in H |- *.
  remember (error_part (error s)) as shown.
  cbn in H.
  destruct (React.mount shown) as [errs | e]; [| discriminate H].
  destruct (React.mount part) as [blk | e]; [| discriminate H].
  cbn in H. injection H as <-. rewrite !app_nil_r.
  exists errs, blk. split; [reflexivity |]. split; [reflexivity |].
  unfold Shape.button_node. destruct (loading s); reflexivity.
Qed.

(** What the error part can be: text nodes of a falsy value, or one
    paragraph around the text nodes of the error. *)
Lemma error_part_shape (s : State) (errs : list React.node) :
  displayed_error s = JS.Normal errs ->
  (JS.truthy (error s) = false
   /\ Forall (fun n => Shape.is_text n = true) errs)
  \/ (JS.truthy (error s) = true
      /\ exists ts,
           Forall (fun n => Shape.is_text n = true) ts
           /\ errs = [React.Element "p"
                        [("className", React.Val (JS.Str "error"))] ts]).
Proof.
  unfold displayed_error, error_part. intros H.
  destruct (JS.truthy (error s)) eqn:Ht.
  - right. split; [reflexivity |].
    rewrite mount_tag in H. cbn in H.
    destruct (React.mount_value (error s)) as [ts | e] eqn:Hts;
      [| discriminate H].
    cbn in H. injection H as <-. rewrite app_nil_r.
    exists ts. split; [now apply (mount_value_texts (error s)) | reflexivity].
  - left. split; [reflexivity |].
    now apply (mount_value_texts (error s)).
Qed.

(** *** Looking up tags in a page *)

Lemma by_tag_nil (t : string) : React.by_tag t [] = [].
Proof. reflexivity. Qed.

Lemma by_tag_cons_text (t s : string) (rest : list React.node) :
  React.by_tag t (React.Text s :: rest) = React.by_tag t rest.
Proof. reflexivity. Qed.

Lemma by_tag_cons_element (t t' : string)
  (ps : list (string * React.prop)) (cs rest : list React.node) :
  React.by_tag t (React.Element t' ps cs :: rest)
  = ((if String.eqb t t' then [React.Element t' ps cs] else [])
     ++ React.by_tag t cs ++ React.by_tag t rest)%list.
Proof.
  rewrite by_tag_cons, by_tag_element, <- app_assoc. reflexivity.
Qed.

Create Rewrite HintDb tags.
#[local] Hint Rewrite by_tag_nil by_tag_cons_text by_tag_cons_element
  by_tag_app app_nil_r : tags.

Lemma error_part_mentions (t : string) (e : JS.value) :
  String.eqb t "p" = false -> Shape.mentions t (error_part e) = false.
Proof.
  intros Ht. unfold error_part. destruct (JS.truthy e); [| reflexivity].
  rewrite mentions_tag, Ht. reflexivity.
Qed.

(** The tags the analysis part can produce. *)
Lemma analysis_part_mentions (t : string) (ticker : string)
  (a : JS.value) (part : React.element) :
  existsb (String.eqb t) ["div"; "h2"; "p"; "h3"; "ul"; "li"; "pre"; "img"]
  = false ->
  analysis_part ticker a = JS.Normal part ->
  Shape.mentions t part = false.
Proof.
  intros Ht H. cbn [existsb] in Ht.
  apply orb_false_iff in Ht as [Hdiv Ht].
  apply orb_false_iff in Ht as [Hh2 Ht].
  apply orb_false_iff in Ht as [Hp Ht].
  apply orb_false_iff in Ht as [Hh3 Ht].
  apply orb_false_iff in Ht as [Hul Ht].
  apply orb_false_iff in Ht as [Hli Ht].
  apply orb_false_iff in Ht as [Hpre Ht].
  apply orb_false_iff in Ht as [Himg _].
  unfold analysis_part in H. destruct (JS.truthy a).
  - destruct (JS.get a "analysis") as [inner | e]; [| discriminate H].
    cbn [JS.cbind] in H.
    destruct (JS.get inner "risk_category") as [risk | e];
      [| discriminate H].
    cbn [JS.cbind] in H.
    destruct (JS.get a "metrics") as [metrics | e]; [| discriminate H].
    cbn [JS.cbind] in H.
    destruct (JS.entries metrics) as [pairs | e]; [| discriminate H].
    cbn [JS.cbind] in H.
    destruct (JS.get a "plot") as [plot | e]; [| discriminate H].
    cbn [JS.cbind] in H. injection H as <-.
    pose proof (mentions_metric_items t pairs Hli) as Hitems.
    remember (React.Items (map metric_item pairs)) as items.
    cbn. rewrite Hitems, Hdiv, Hh2, Hp, Hh3, Hul, Hpre, Himg.
    reflexivity.
  - injection H as <-. reflexivity.
Qed.

(** Tags that only the fixed frame of the page has are found there and
    nowhere else. *)
Lemma frame_only (t : string) (s : State) (errs blk : list React.node) :
  existsb (String.eqb t) ["div"; "h2"; "p"; "h3"; "ul"; "li"; "pre"; "img"]
  = false ->
  displayed_error s = JS.Normal errs ->
  displayed_analysis s = JS.Normal blk ->
  React.by_tag t (errs ++ blk) = [].
Proof.
  intros Ht Herr Hblk. rewrite by_tag_app.
  assert (Hp : String.eqb t "p" = false).
  { cbn [existsb] in Ht.
    apply orb_false_iff in Ht as [_ Ht].
    apply orb_false_iff in Ht as [_ Ht].
    apply orb_false_iff in Ht as [Hp _]. exact Hp. }
  rewrite (mount_no_tag t _ (error_part_mentions t (error s) Hp) errs Herr).
  unfold displayed_analysis in Hblk.
  destruct (analysis_part (ticker s) (analysis s)) as [part | e] eqn:Hpart;
    [| discriminate Hblk].
  cbn [JS.cbind] in Hblk.
  rewrite (mount_no_tag t part
             (analysis_part_mentions t _ _ part Ht Hpart) blk Hblk).
  reflexivity.
Qed.

(** X1: on every page that renders there is exactly one text input and
    exactly one button.  The input shows the [ticker] cell; the button is
    disabled exactly when [loading] is true and its label is
    "Analyzing..." then and "Analyze" otherwise.  Nothing in a reply can
    add or remove a control. *)
Theorem controls_follow_state (s : State) (page : list React.node) :
  render s = JS.Normal page ->
  map (React.attribute "value") (React.by_tag "input" page)
  = [Some (React.Val (JS.Str (ticker s)))]
  /\ map (React.attribute "disabled") (React.by_tag "button" page)
     = [Some (React.Val (JS.Bool (loading s)))]
  /\ map (React.attribute "onClick") (React.by_tag "button" page)
     = [Some (React.Fn "handleAnalyze")]
  /\ map React.text_content (React.by_tag "button" page)
     = [if loading s then "Analyzing..." else "Analyze"].
Proof.
  intros H.
  destruct (render_shape s page H) as (errs & blk & Herr & Hblk & ->).
  pose proof (frame_only "input" s errs blk eq_refl Herr Hblk) as Hi.
  pose proof (frame_only "button" s errs blk eq_refl Herr Hblk) as Hb.
  unfold Shape.title_node, Shape.input_node, Shape.button_node.
  autorewrite with tags. rewrite <- by_tag_app, Hi.
  autorewrite with tags. rewrite <- by_tag_app, Hb.
  cbn. destruct (loading s); repeat split; reflexivity.
Qed.

Lemma controls_follow_state_witness :
  render (Spec.with_ticker "TCS.NS")
  = JS.Normal (Shape.bare_page (Spec.with_ticker "TCS.NS"))
  /\ map (React.attribute "value")
       (React.by_tag "input"
          (Shape.bare_page (Spec.with_ticker "TCS.NS")))
     = [Some (React.Val (JS.Str "TCS.NS"))].
Proof.
  split; [reflexivity |].
  apply (controls_follow_state (Spec.with_ticker "TCS.NS")
           (Shape.bare_page (Spec.with_ticker "TCS.NS"))).
  reflexivity.
Defined.

(** *** The analysis block *)

Lemma primitive_mounts (v : JS.value) (ns : list React.node) :
  Shape.primitive v = true ->
  React.mount_value v = JS.Normal ns ->
  (ns = [] /\ Shape.primitive_text v = "")
  \/ ns = [React.Text (Shape.primitive_text v)].
Proof.
  intros Hp H. destruct v; try discriminate Hp; cbn in H;
    injection H as <-; try (left; split; reflexivity).
  - right. reflexivity.
  - cbn. destruct (String.eqb_spec s ""); [left | right];
      [split; [reflexivity | assumption] | reflexivity].
Qed.

(** Where each tag of the analysis block is found. *)
Lemma block_by_tag (t ticker : string) (rs lis pre : list React.node)
  (plot : JS.value) :
  Forall (fun n => Shape.is_text n = true) rs ->
  Forall (fun n => Shape.is_text n = true) pre ->
  String.eqb t "div" = false -> String.eqb t "h3" = false ->
  String.eqb t "ul" = false ->
  React.by_tag t [Shape.block_node ticker rs lis pre plot]
  = ((if String.eqb t "h2" then [Shape.heading_node ticker] else [])
     ++ (if String.eqb t "p"
         then [React.Element "p" [] (React.Text "Risk Category: " :: rs)]
         else [])
     ++ React.by_tag t lis
     ++ (if String.eqb t "pre" then [React.Element "pre" [] pre] else [])
     ++ (if String.eqb t "img" then [Shape.image_node plot] else []))%list.
Proof.
  intros Hrs Hpre Hdiv Hh3 Hul.
  unfold Shape.block_node, Shape.heading_node, Shape.image_node.
  autorewrite with tags.
  rewrite Hdiv, Hh3, Hul, (by_tag_texts t rs Hrs), (by_tag_texts t pre Hpre).
  destruct (String.eqb (JS.to_upper_case ticker) "");
    autorewrite with tags; cbn [app]; rewrite ?app_nil_r; reflexivity.
Qed.

(** The parts of a block that rendered, with what is known of each. *)
Lemma block_parts (s : State) (blk : list React.node) :
  JS.truthy (analysis s) = true ->
  displayed_analysis s = JS.Normal blk ->
  exists pairs rs lis pre,
    JS.entries (JS.own (analysis s) "metrics") = JS.Normal pairs
    /\ React.mount_value
         (JS.own (JS.own (analysis s) "analysis") "risk_category")
       = JS.Normal rs
    /\ React.mount (React.Items (map metric_item pairs)) = JS.Normal lis
    /\ React.mount_value (stringified (JS.own (analysis s) "analysis"))
       = JS.Normal pre
    /\ (forall t, String.eqb t "div" = false -> String.eqb t "h3" = false ->
                  String.eqb t "ul" = false ->
         React.by_tag t blk
         = ((if String.eqb t "h2"
             then [Shape.heading_node (ticker s)] else [])
            ++ (if String.eqb t "p"
                then [React.Element "p" []
                        (React.Text "Risk Category: " :: rs)]
                else [])
            ++ React.by_tag t lis
            ++ (if String.eqb t "pre"
                then [React.Element "pre" [] pre] else [])
            ++ (if String.eqb t "img"
                then [Shape.image_node (JS.own (analysis s) "plot")]
                else []))%list).
Proof.
  intros Ht H.
  destruct (analysis_block_shape (ticker s) (analysis s) blk Ht H)
    as (pairs & rs & lis & pre & _ & Hent & Hrs & Hlis & Hpre & ->).
  exists pairs, rs, lis, pre.
  repeat (split; [assumption |]).
  intros t Hdiv Hh3 Hul. apply block_by_tag; try assumption.
  - apply (mount_value_texts _ rs Hrs).
  - apply (mount_value_texts _ pre Hpre).
Qed.

Lemma metric_items_no_tag (t : string) (pairs : list (string * JS.value))
  (lis : list React.node) :
  String.eqb t "li" = false ->
  React.mount (React.Items (map metric_item pairs)) = JS.Normal lis ->
  React.by_tag t lis = [].
Proof.
  intros Ht H.
  apply (mount_no_tag t _ (mentions_metric_items t pairs Ht) lis H).
Qed.

Lemma append_empty (s : string) : s ++ "" = s.
Proof. induction s as [| c s IH]; cbn; [reflexivity | now rewrite IH]. Qed.

Lemma heading_text (t : string) :
  React.text_content (Shape.heading_node t)
  = "Risk Analysis for " ++ JS.to_upper_case t.
Proof.
  unfold Shape.heading_node.
  destruct (String.eqb_spec (JS.to_upper_case t) "") as [-> | _].
  - reflexivity.
  - cbn. now rewrite append_empty.
Qed.



(** X3: whenever the analysis block renders, it has exactly one image,
    whose source is "data:image/png;base64," followed by the [plot]
    field of the stored body converted to a string.  A body without a
    plot still renders; its image source then ends in "undefined". *)
Theorem image_source_is_the_plot_field (s : State)
  (blk : list React.node) :
  JS.truthy (analysis s) = true ->
  displayed_analysis s = JS.Normal blk ->
  map (React.attribute "src") (React.by_tag "img" blk)
  = [Some (React.Val (JS.Str
       ("data:image/png;base64,"
        ++ JS.to_string (JS.own (analysis s) "plot"))))]
  /\ (JS.own (analysis s) "plot" = JS.Undefined ->
      map (React.attribute "src") (React.by_tag "img" blk)
      = [Some (React.Val (JS.Str "data:image/png;base64,undefined"))]).
Proof.
  intros Ht H.
  destruct (block_parts s blk Ht H)
    as (pairs & rs & lis & pre & _ & _ & Hlis & _ & Htags).
  rewrite (Htags "img" eq_refl eq_refl eq_refl).
  rewrite (metric_items_no_tag "img" pairs lis eq_refl Hlis).
  cbn [String.eqb Ascii.eqb Bool.eqb app map].
  split; [reflexivity |]. intros ->. reflexivity.
Qed.

Lemma image_source_is_the_plot_field_witness :
  JS.truthy (analysis Shape.sample_state) = true
  /\ displayed_analysis Shape.sample_state = JS.Normal Shape.sample_block
  /\ map (React.attribute "src") (React.by_tag "img" Shape.sample_block)
     = [Some (React.Val (JS.Str "data:image/png;base64,iVBORw0KG..."))].
Proof.
  split; [reflexivity |]. split; [reflexivity |].
  apply (image_source_is_the_plot_field Shape.sample_state
           Shape.sample_block); reflexivity.
Defined.

(** X4: whenever the analysis block renders and the [risk_category] of
    the body is a primitive, the block has exactly one paragraph, reading
    "Risk Category: " followed by the category; a category that is
    missing, [null] or a boolean leaves the paragraph ending after the
    colon. *)
Theorem risk_paragraph_shows_the_category (s : State)
  (blk : list React.node) :
  JS.truthy (analysis s) = true ->
  displayed_analysis s = JS.Normal blk ->
  Shape.primitive (JS.own (JS.own (analysis s) "analysis") "risk_category")
  = true ->
  map React.text_content (React.by_tag "p" blk)
  = ["Risk Category: "
     ++ Shape.primitive_text
          (JS.own (JS.own (analysis s) "analysis") "risk_category")].
Proof.
  intros Ht H Hprim.
  destruct (block_parts s blk Ht H)
    as (pairs & rs & lis & pre & _ & Hrs & Hlis & _ & Htags).
  rewrite (Htags "p" eq_refl eq_refl eq_refl).
  rewrite (metric_items_no_tag "p" pairs lis eq_refl Hlis).
  cbn [String.eqb Ascii.eqb Bool.eqb app map].
  destruct (primitive_mounts _ rs Hprim Hrs) as [[-> ->] | ->].
  - reflexivity.
  - cbn. now rewrite append_empty.
Qed.

Lemma risk_paragraph_shows_the_category_witness :
  JS.truthy (analysis Shape.sample_state) = true
  /\ displayed_analysis Shape.sample_state = JS.Normal Shape.sample_block
  /\ Shape.primitive (JS.Str "High") = true
  /\ map React.text_content (React.by_tag "p" Shape.sample_block)
     = ["Risk Category: High"].
Proof.
  split; [reflexivity |]. split; [reflexivity |]. split; [reflexivity |].
  apply (risk_paragraph_shows_the_category Shape.sample_state
           Shape.sample_block); reflexivity.
Defined.

(** X5: whenever the analysis block renders, it has exactly one
    preformatted element and its text is [JSON.stringify] of the
    [analysis] field of the body with an indent of two; that field is
    never [undefined] there, so there is always such a text. *)
Theorem preformatted_text_is_the_json (s : State)
  (blk : list React.node) :
  JS.truthy (analysis s) = true ->
  displayed_analysis s = JS.Normal blk ->
  exists json,
    JS.stringify (JS.own (analysis s) "analysis") = Some json
    /\ map React.text_content (React.by_tag "pre" blk) = [json].
Proof.
  intros Ht H.
  destruct (analysis_block_shape (ticker s) (analysis s) blk Ht H)
    as (_ & _ & _ & _ & Hin & _).
  destruct (block_parts s blk Ht H)
    as (pairs & rs & lis & pre & _ & _ & Hlis & Hpre & Htags).
  rewrite (Htags "pre" eq_refl eq_refl eq_refl).
  rewrite (metric_items_no_tag "pre" pairs lis eq_refl Hlis).
  cbn [String.eqb Ascii.eqb Bool.eqb app map].
  unfold stringified in Hpre.
  destruct (JS.stringify (JS.own (analysis s) "analysis")) as [json |]
    eqn:Hjson.
  - exists json. split; [reflexivity |].
    cbn in Hpre. destruct (String.eqb_spec json "") as [-> | _];
      injection Hpre as <-; [reflexivity |].
    cbn. now rewrite append_empty.
  - exfalso. unfold JS.stringify in Hjson.
    destruct (JS.own (analysis s) "analysis"); cbn in Hjson, Hin;
      try discriminate.
    destruct x; discriminate.
Qed.

Lemma preformatted_text_is_the_json_witness :
  JS.truthy (analysis Shape.sample_state) = true
  /\ displayed_analysis Shape.sample_state = JS.Normal Shape.sample_block
  /\ exists json,
       JS.stringify (JS.Obj [("risk_category", JS.Str "High")]) = Some json
       /\ map React.text_content (React.by_tag "pre" Shape.sample_block)
          = [json].
Proof.
  split; [reflexivity |]. split; [reflexivity |].
  apply (preformatted_text_is_the_json Shape.sample_state
           Shape.sample_block); reflexivity.
Defined.

(** *** The list of metrics *)

Lemma metric_item_mounts (kv : string * JS.value) :
  Shape.primitive (snd kv) = true ->
  exists cs,
    React.mount (metric_item kv)
    = JS.Normal [React.Element "li" [("key", React.Val (JS.Str (fst kv)))] cs]
    /\ Forall (fun n => Shape.is_text n = true) cs
    /\ React.text_content
         (React.Element "li" [("key", React.Val (JS.Str (fst kv)))] cs)
       = Shape.metric_text kv.
Proof.
  destruct kv as [k v]. cbn [fst snd]. intros Hp.
  unfold metric_item, Shape.metric_text. cbn [fst snd].
  rewrite mount_tag, !mount_items_cons. cbn -[String.eqb].
  destruct (React.mount_value v) as [ns | e] eqn:Hv.
  - destruct (primitive_mounts v ns Hp Hv) as [[-> ->] | ->];
      destruct (String.eqb_spec k "") as [-> | _]; cbn;
      eexists; (split; [reflexivity |]);
      (split; [repeat constructor |]); cbn;
      rewrite ?append_empty; reflexivity.
  - destruct v; try discriminate Hp; cbn in Hv; discriminate Hv.
Qed.

Lemma metric_items_text (pairs : list (string * JS.value)) :
  forallb Shape.primitive (map snd pairs) = true ->
  forall lis,
    React.mount (React.Items (map metric_item pairs)) = JS.Normal lis ->
    map React.text_content (React.by_tag "li" lis)
    = map Shape.metric_text pairs.
Proof.
  induction pairs as [| kv rest IH]; intros Hp lis H.
  - injection H as <-. reflexivity.
  - cbn [map forallb] in Hp, H. apply andb_true_iff in Hp as [Hkv Hrest].
    rewrite mount_items_cons in H.
    destruct (metric_item_mounts kv Hkv) as (cs & Hm & Hcs & Htext).
    rewrite Hm in H. cbn [JS.cbind] in H.
    destruct (React.mount (React.Items (map metric_item rest)))
      as [more | e]; [| discriminate H].
    cbn [JS.cbind] in H. injection H as <-.
    cbn [app]. rewrite by_tag_cons_element, (by_tag_texts "li" cs Hcs).
    cbn [String.eqb Ascii.eqb Bool.eqb app map].
    rewrite Htext, (IH Hrest more eq_refl). reflexivity.
Qed.



(** *** Letter case *)

Lemma upper_char_idempotent (c : ascii) :
  JS.upper_char (JS.upper_char c) = JS.upper_char c.
Proof.
  destruct c as [[] [] [] [] [] [] [] []]; reflexivity.
Qed.

Lemma to_upper_case_idempotent (t : string) :
  JS.to_upper_case (JS.to_upper_case t) = JS.to_upper_case t.
Proof.
  induction t as [| c t IH]; [reflexivity |].
  cbn. now rewrite upper_char_idempotent, IH.
Qed.



(** *** When the page renders *)

Lemma renderable_cons (x : JS.value) (l : list JS.value) :
  Shape.renderable (JS.Arr (x :: l))
  = Shape.renderable x && Shape.renderable (JS.Arr l).
Proof. reflexivity. Qed.

Lemma mount_value_cons (x : JS.value) (l : list JS.value) :
  React.mount_value (JS.Arr (x :: l))
  = JS.cbind (React.mount_value x) (fun ns =>
    JS.cbind (React.mount_value (JS.Arr l)) (fun ms =>
    JS.Normal (ns ++ ms)%list)).
Proof. reflexivity. Qed.

(** A value mounts exactly when it holds no object; otherwise React
    refuses it. *)
Lemma mount_value_cases (v : JS.value) :
  (Shape.renderable v = true /\ exists ns, React.mount_value v = JS.Normal ns)
  \/ (Shape.renderable v = false
      /\ React.mount_value v = JS.Throws JS.InvalidChild).
Proof.
  induction v as [| | b | x | s | items IH | props] using value_induction;
    try (left; split; [reflexivity | eexists; reflexivity]).
  - induction IH as [| v rest Hv _ IHrest].
    + left. split; [reflexivity | eexists; reflexivity].
    + rewrite renderable_cons, mount_value_cons.
      destruct Hv as [[-> [ns ->]] | [-> ->]]; [| right; split; reflexivity].
      destruct IHrest as [[-> [ms ->]] | [-> ->]];
        [left; split; [reflexivity | eexists; reflexivity]
        | right; split; reflexivity].
  - right. split; reflexivity.
Qed.

Lemma mount_value_renderable (v : JS.value) (ns : list React.node) :
  React.mount_value v = JS.Normal ns -> Shape.renderable v = true.
Proof.
  intros H. destruct (mount_value_cases v) as [[Hr _] | [_ Ht]];
    [exact Hr | congruence].
Qed.

Lemma renderable_mounts (v : JS.value) :
  Shape.renderable v = true -> exists ns, React.mount_value v = JS.Normal ns.
Proof.
  intros H. destruct (mount_value_cases v) as [[_ Hn] | [Hr _]];
    [exact Hn | congruence].
Qed.

Lemma metric_item_cases (kv : string * JS.value) :
  (Shape.renderable (snd kv) = true
   /\ exists ns, React.mount (metric_item kv) = JS.Normal ns)
  \/ (Shape.renderable (snd kv) = false
      /\ React.mount (metric_item kv) = JS.Throws JS.InvalidChild).
Proof.
  destruct kv as [k v]. cbn [snd]. unfold metric_item. cbn [fst snd].
  rewrite mount_tag, !mount_items_cons. cbn -[String.eqb].
  destruct (mount_value_cases v) as [[-> [ns ->]] | [-> ->]].
  - left. split; [reflexivity |].
    destruct (String.eqb k ""); eexists; reflexivity.
  - right. split; [reflexivity |].
    destruct (String.eqb k ""); reflexivity.
Qed.

Lemma metric_items_cases (pairs : list (string * JS.value)) :
  (forallb Shape.renderable (map snd pairs) = true
   /\ exists lis,
        React.mount (React.Items (map metric_item pairs)) = JS.Normal lis)
  \/ (forallb Shape.renderable (map snd pairs) = false
      /\ React.mount (React.Items (map metric_item pairs))
         = JS.Throws JS.InvalidChild).
Proof.
  induction pairs as [| kv rest IH].
  - left. split; [reflexivity | eexists; reflexivity].
  - cbn [map forallb]. rewrite mount_items_cons.
    destruct (metric_item_cases kv) as [[-> [ns ->]] | [-> ->]];
      [| right; split; reflexivity].
    destruct IH as [[-> [ms ->]] | [-> ->]];
      [left; split; [reflexivity | eexists; reflexivity]
      | right; split; reflexivity].
Qed.

Lemma entries_nullish (v : JS.value) :
  (JS.nullish v = true /\ JS.entries v = JS.Throws JS.TypeError)
  \/ (JS.nullish v = false /\ exists pairs, JS.entries v = JS.Normal pairs).
Proof.
  destruct v; cbn;
    first [left; split; reflexivity
          | right; split; [reflexivity | eexists; reflexivity]].
Qed.

Lemma stringified_mounts (v : JS.value) :
  exists pre, React.mount_value (stringified v) = JS.Normal pre.
Proof.
  unfold stringified. destruct (JS.stringify v); eexists; reflexivity.
Qed.

Lemma block_outcome (t : string) (a : JS.value) :
  JS.truthy a = true ->
  ((JS.nullish (JS.own a "analysis") = true
    \/ JS.nullish (JS.own a "metrics") = true)
   /\ analysis_part t a = JS.Throws JS.TypeError)
  \/ (JS.nullish (JS.own a "analysis") = false
      /\ JS.nullish (JS.own a "metrics") = false
      /\ (exists part, analysis_part t a = JS.Normal part)
      /\ exists pairs,
           JS.entries (JS.own a "metrics") = JS.Normal pairs
           /\ ((Shape.renderable
                  (JS.own (JS.own a "analysis") "risk_category") = true
                /\ forallb Shape.renderable (map snd pairs) = true
                /\ exists blk,
                     JS.cbind (analysis_part t a) React.mount
                     = JS.Normal blk)
               \/ ((Shape.renderable
                      (JS.own (JS.own a "analysis") "risk_category")
                    = false
                    \/ forallb Shape.renderable (map snd pairs) = false)
                   /\ JS.cbind (analysis_part t a) React.mount
                      = JS.Throws JS.InvalidChild))).
Proof.
  intros Ht. unfold analysis_part. rewrite Ht. unfold JS.get.
  rewrite (truthy_not_nullish a Ht). cbn [JS.cbind].
  destruct (JS.nullish (JS.own a "analysis")) eqn:Hin.
  { left. split; [left; reflexivity | reflexivity]. }
  cbn [JS.cbind].
  destruct (entries_nullish (JS.own a "metrics"))
    as [[Hm ->] | [Hm [pairs ->]]].
  { left. split; [right; exact Hm | reflexivity]. }
  right. split; [reflexivity |]. split; [exact Hm |].
  cbn [JS.cbind]. split; [eexists; reflexivity |].
  exists pairs. split; [reflexivity |].
  remember (React.Items (map metric_item pairs)) as items eqn:Hitems.
  remember (JS.own (JS.own a "analysis") "risk_category") as risk.
  remember (stringified (JS.own a "analysis")) as json.
  remember (JS.own a "plot") as plot.
  cbn.
  destruct (mount_value_cases risk) as [[-> [rs ->]] | [-> ->]];
    [| right; split; [left; reflexivity | reflexivity]].
  destruct (metric_items_cases pairs) as [[-> [lis Hlis]] | [-> Hlis]];
    rewrite <- Hitems in Hlis; rewrite Hlis.
  - left. split; [reflexivity |]. split; [reflexivity |].
    subst json. destruct (stringified_mounts (JS.own a "analysis"))
      as [pre ->].
    eexists. reflexivity.
  - right. split; [right; reflexivity | reflexivity].
Qed.

Lemma error_part_cases (e : JS.value) :
  (Shape.renderable e = true
   /\ exists errs, React.mount (error_part e) = JS.Normal errs)
  \/ (Shape.renderable e = false
      /\ JS.truthy e = true
      /\ React.mount (error_part e) = JS.Throws JS.InvalidChild).
Proof.
  unfold error_part.
  destruct (mount_value_cases e) as [[Hr [ns Hns]] | [Hr Hthrow]].
  - left. split; [exact Hr |].
    destruct (JS.truthy e).
    + rewrite mount_tag, mount_items_cons. cbn. rewrite Hns.
      eexists. reflexivity.
    + exists ns. exact Hns.
  - right. split; [exact Hr |].
    assert (Ht : JS.truthy e = true)
      by (destruct e; try discriminate Hr; reflexivity).
    split; [exact Ht |]. rewrite Ht.
    rewrite mount_tag, mount_items_cons. cbn. rewrite Hthrow. reflexivity.
Qed.

(** The page is the analysis part evaluated first, then the error part
    and the analysis part mounted in that order inside the frame. *)
Lemma render_parts (s : State) :
  render s =
  match analysis_part (ticker s) (analysis s) with
  | JS.Throws e => JS.Throws e
  | JS.Normal part =>
      match displayed_error s with
      | JS.Throws e => JS.Throws e
      | JS.Normal errs =>
          match React.mount part with
          | JS.Throws e => JS.Throws e
          | JS.Normal blk => JS.Normal (Shape.page_of s errs blk)
          end
      end
  end.
Proof.
  unfold render, view, displayed_error.
  destruct (analysis_part (ticker s) (analysis s)) as [part | e];
    [| reflexivity].
  cbn [JS.cbind].
  remember (error_part (error s)) as shown.
  cbn.
  destruct (React.mount shown) as [errs | e]; [| reflexivity].
  destruct (React.mount part) as [blk | e]; [| reflexivity].
  cbn. rewrite !app_nil_r. unfold Shape.page_of, Shape.button_node.
  destruct (loading s); reflexivity.
Qed.

Lemma falsy_renderable (v : JS.value) :
  JS.truthy v = false -> Shape.renderable v = true.
Proof. destruct v; cbn; congruence. Qed.



(** X10: when a request is rejected and the [error] field of its body
    is an object, or an array that holds one, the handler stores that
    value as the error and the page can no longer render: React refuses
    the value as a child of the error paragraph. *)
Theorem object_error_breaks_the_page
  (net : Axios.request -> Axios.outcome) (s : State) (err : Axios.error) :
  ticker s <> "" ->
  Spec.fails_with net s err ->
  Shape.renderable (server_error err) = false ->
  error (final s (analyze net s)) = server_error err
  /\ displayed_error (final s (analyze net s)) = JS.Throws JS.InvalidChild
  /\ forall page, render (final s (analyze net s)) <> JS.Normal page.
Proof.
  intros Ht Hnet Hbad.
  destruct (analyze_rejected net s err Ht Hnet) as [-> _].
  destruct (error_part_cases (server_error err))
    as [[Hr _] | (_ & Htruthy & Hthrow)]; [congruence |].
  assert (He : error (Spec.failed s
                 (JS.or_else (server_error err) (JS.Str fallback_message)))
               = server_error err).
  { cbn. unfold JS.or_else. now rewrite Htruthy. }
  split; [exact He |].
  assert (Hd : displayed_error (Spec.failed s
                 (JS.or_else (server_error err) (JS.Str fallback_message)))
               = JS.Throws JS.InvalidChild).
  { unfold displayed_error. rewrite He. exact Hthrow. }
  split; [exact Hd |].
  intros page H. rewrite render_parts, Hd in H.
  destruct (analysis_part _ _); [| discriminate H]. discriminate H.
Qed.

Lemma object_error_breaks_the_page_witness :
  ticker (Spec.with_ticker "NOPE") <> ""
  /\ Spec.fails_with
       (Spec.always 422
          (JS.Obj [("error", JS.Obj [("code", JS.Str "E42")])]))
       (Spec.with_ticker "NOPE")
       {| Axios.err_response :=
            Some {| Axios.status := 422;
                    Axios.data :=
                      JS.Obj [("error", JS.Obj [("code", JS.Str "E42")])]
                 |} |}
  /\ Shape.renderable (JS.Obj [("code", JS.Str "E42")]) = false
  /\ displayed_error
       (final (Spec.with_ticker "NOPE")
          (analyze
             (Spec.always 422
                (JS.Obj [("error", JS.Obj [("code", JS.Str "E42")])]))
             (Spec.with_ticker "NOPE")))
     = JS.Throws JS.InvalidChild.
Proof.
  split; [discriminate |]. split; [reflexivity |]. split; [reflexivity |].
  apply (object_error_breaks_the_page
           (Spec.always 422
              (JS.Obj [("error", JS.Obj [("code", JS.Str "E42")])]))
           (Spec.with_ticker "NOPE")
           {| Axios.err_response :=
                Some {| Axios.status := 422;
                        Axios.data :=
                          JS.Obj [("error",
                                   JS.Obj [("code", JS.Str "E42")])] |} |});
    [discriminate | reflexivity | reflexivity].
Defined.

(** *** The page over time *)

Lemma click_filled_tail (s : State) :
  ticker s <> "" ->
  exists k,
    advance apply (handleAnalyze (ticker s)) s
    = (Spec.waiting s, Suspended (Spec.request_for (ticker s)) k)
    /\ Shape.handler_tail k.
Proof.
  intros Ht. apply truthy_ticker in Ht.
  unfold handleAnalyze. rewrite Ht. cbn.
  eexists. split; [reflexivity |].
  intros out s'. destruct out as [resp | err]; reflexivity.
Qed.

Lemma run_snoc (c : page) (inputs : list input) (i : input) :
  run c (inputs ++ [i]) = step (run c inputs) i.
Proof. unfold run. now rewrite fold_left_app. Qed.

(** What one input does to a tracked page. *)
Lemma step_tracked_cases (c : page) (i : input) :
  Shape.tracked c ->
  Shape.tracked (step c i)
  /\ match i with
     | Typed t =>
         state (step c i)
         = {| ticker := t; analysis := analysis (state c);
              error := error (state c); loading := loading (state c) |}
         /\ inflight (step c i) = inflight c
     | Click =>
         (loading (state c) = true /\ step c i = c)
         \/ (loading (state c) = false /\ ticker (state c) = ""
             /\ state (step c i)
                = {| ticker := ticker (state c);
                     analysis := analysis (state c);
                     error := JS.Str validation_message;
                     loading := false |}
             /\ inflight (step c i) = [])
         \/ (loading (state c) = false /\ ticker (state c) <> ""
             /\ state (step c i) = Spec.waiting (state c)
             /\ map fst (inflight (step c i))
                = [Spec.request_for (ticker (state c))])
     | Settled n out =>
         (step c i = c /\ (n <> 0 \/ loading (state c) = false))
         \/ (n = 0 /\ loading (state c) = true
             /\ error (state c) = JS.Null
             /\ state (step c i) = Shape.settled out (state c)
             /\ inflight (step c i) = [])
     end.
Proof.
  intros Hc. destruct i as [t | | n out]; cbn [step].
  - unfold resume. cbn. split; [| split; reflexivity].
    destruct Hc as [[Hq Hl] | (r & k & Hq & Hl & He & Hk)].
    + left. split; assumption.
    + right. exists r, k. repeat (split; [assumption |]). exact Hk.
  - destruct (loading (state c)) eqn:Hl.
    { split; [exact Hc | left; split; reflexivity]. }
    destruct Hc as [[Hq _] | (r & k & _ & Hl' & _)]; [| congruence].
    unfold resume.
    destruct (string_dec (ticker (state c)) "") as [Ht | Ht].
    + rewrite (click_empty _ Ht). cbn [state inflight]. rewrite Hl.
      split; [left; split; [exact Hq | reflexivity] |].
      right. left. repeat (split; [reflexivity || assumption |]).
      exact Hq.
    + destruct (click_filled_tail _ Ht) as (k & -> & Hk).
      cbn [state inflight]. rewrite Hq. cbn [app map fst].
      split.
      * right. exists (Spec.request_for (ticker (state c))), k.
        repeat (split; [reflexivity |]). exact Hk.
      * right. right. repeat (split; [reflexivity || assumption |]).
        reflexivity.
  - destruct Hc as [[Hq Hl] | (r & k & Hq & Hl & He & Hk)].
    + rewrite Hq. replace (nth_error [] n) with (@None
        (Axios.request * (Axios.outcome -> prog setter unit)))
        by (destruct n; reflexivity).
      split; [left; split; assumption |].
      left. split; [reflexivity | right; exact Hl].
    + rewrite Hq. destruct n as [| n]; cbn [nth_error].
      * unfold resume. cbn [state inflight remove_nth].
        rewrite (Hk out (state c)). cbn [state inflight].
        split; [left; split; [reflexivity | destruct out; reflexivity] |].
        right. repeat (split; [reflexivity || assumption |]).
        reflexivity.
      * replace (nth_error [] n) with (@None
          (Axios.request * (Axios.outcome -> prog setter unit)))
          by (destruct n; reflexivity).
        split.
        -- right. exists r, k. repeat (split; [assumption |]). exact Hk.
        -- left. split; [reflexivity | left; discriminate].
Qed.

Lemma start_tracked : Shape.tracked start.
Proof. left. split; reflexivity. Qed.

Lemma run_tracked (inputs : list input) :
  Shape.tracked (run start inputs).
Proof.
  induction inputs as [| i rest IH] using rev_ind.
  - exact start_tracked.
  - rewrite run_snoc. apply (step_tracked_cases _ i IH).
Qed.

(** What the cells hold after any inputs, by where the value came from. *)
Lemma run_history (inputs : list input) :
  (error (state (run start inputs)) = JS.Null
   \/ error (state (run start inputs)) = JS.Str validation_message
   \/ exists n err,
        In (Settled n (Axios.Rejected err)) inputs
        /\ error (state (run start inputs))
           = JS.or_else (server_error err) (JS.Str fallback_message))
  /\ (analysis (state (run start inputs)) = JS.Null
      \/ exists n resp,
           In (Settled n (Axios.Resolved resp)) inputs
           /\ analysis (state (run start inputs)) = Axios.data resp)
  /\ ticker (state (run start inputs))
     = last (Shape.typed_texts inputs) "".
Proof.
  induction inputs as [| i rest IH] using rev_ind.
  - split; [left; reflexivity |]. split; [left; reflexivity | reflexivity].
  - destruct IH as (Herr & Hana & Htick).
    assert (Herr' :
      error (state (run start rest)) = JS.Null
      \/ error (state (run start rest)) = JS.Str validation_message
      \/ exists n err,
           In (Settled n (Axios.Rejected err)) (rest ++ [i])
           /\ error (state (run start rest))
              = JS.or_else (server_error err) (JS.Str fallback_message)).
    { destruct Herr as [H | [H | (n & err & Hin & H)]];
        [left; exact H | right; left; exact H |].
      right. right. exists n, err.
      split; [apply in_or_app; left; exact Hin | exact H]. }
    assert (Hana' :
      analysis (state (run start rest)) = JS.Null
      \/ exists n resp,
           In (Settled n (Axios.Resolved resp)) (rest ++ [i])
           /\ analysis (state (run start rest)) = Axios.data resp).
    { destruct Hana as [H | (n & resp & Hin & H)]; [left; exact H |].
      right. exists n, resp.
      split; [apply in_or_app; left; exact Hin | exact H]. }
    clear Herr Hana.
    unfold Shape.typed_texts in Htick |- *.
    rewrite run_snoc, flat_map_app.
    destruct (step_tracked_cases (run start rest) i (run_tracked rest))
      as [_ Hstep].
    destruct i as [t | | n out].
    + destruct Hstep as [-> _]. cbn [error analysis ticker].
      split; [exact Herr' |]. split; [exact Hana' |].
      cbn [flat_map app]. now rewrite last_last.
    + cbn [flat_map]. rewrite app_nil_r.
      destruct Hstep as [[_ ->] | [(_ & _ & -> & _) | (_ & _ & -> & _)]];
        cbn [error analysis ticker Spec.waiting].
      * split; [exact Herr' |]. split; [exact Hana' | exact Htick].
      * split; [right; left; reflexivity |].
        split; [exact Hana' | exact Htick].
      * split; [left; reflexivity |].
        split; [exact Hana' | exact Htick].
    + cbn [flat_map]. rewrite app_nil_r.
      destruct Hstep as [[-> _] | (-> & _ & He & -> & _)].
      * split; [exact Herr' |]. split; [exact Hana' | exact Htick].
      * destruct out as [resp | err];
          cbn [Shape.settled error analysis ticker].
        -- split; [left; exact He |]. split; [| exact Htick].
           right. exists 0, resp.
           split; [apply in_or_app; right; left; reflexivity | reflexivity].
        -- split; [| split; [exact Hana' | exact Htick]].
           right. right. exists 0, err.
           split; [apply in_or_app; right; left; reflexivity | reflexivity].
Qed.

(** X11: after any sequence of inputs, the error cell holds [null], the
    validation message, or what the catch block made of a rejection that
    occurred; so it is [null] or truthy, never an empty text.  While a
    request is in flight it is [null] and no error is on the page. *)
Theorem error_cell_over_time (inputs : list input) :
  (error (state (run start inputs)) = JS.Null
   \/ error (state (run start inputs))
      = JS.Str "Please enter a stock ticker."
   \/ exists n err,
        In (Settled n (Axios.Rejected err)) inputs
        /\ error (state (run start inputs))
           = JS.or_else (server_error err) (JS.Str "An error occurred."))
  /\ (error (state (run start inputs)) = JS.Null
      \/ JS.truthy (error (state (run start inputs))) = true)
  /\ (loading (state (run start inputs)) = true ->
      error (state (run start inputs)) = JS.Null
      /\ displayed_error (state (run start inputs)) = JS.Normal []).
Proof.
  destruct (run_history inputs) as (Herr & _ & _).
  split; [exact Herr |]. split.
  - destruct Herr as [H | [H | (n & err & _ & H)]]; [left; exact H | |];
      right; rewrite H; [reflexivity | apply or_else_fallback_truthy].
  - intros Hl.
    destruct (run_tracked inputs) as [[_ Hl'] | (r & k & _ & _ & He & _)];
      [congruence |].
    split; [exact He |]. unfold displayed_error. rewrite He. reflexivity.
Qed.

Lemma error_cell_over_time_witness :
  loading (state (run start [Typed "TCS.NS"; Click])) = true
  /\ displayed_error (state (run start [Typed "TCS.NS"; Click]))
     = JS.Normal [].
Proof.
  split; [reflexivity |].
  apply (error_cell_over_time [Typed "TCS.NS"; Click]). reflexivity.
Defined.

(** X12: after any sequence of inputs, the analysis cell holds [null] or
    the body of a request that resolved, and the ticker cell holds the
    last text typed (the empty text when nothing was typed): clicks and
    settlements never change the ticker, and nothing but a resolved
    request changes the analysis. *)
Theorem cells_hold_what_was_received (inputs : list input) :
  (analysis (state (run start inputs)) = JS.Null
   \/ exists n resp,
        In (Settled n (Axios.Resolved resp)) inputs
        /\ analysis (state (run start inputs)) = Axios.data resp)
  /\ ticker (state (run start inputs))
     = last (flat_map (fun i =>
               match i with Typed t => [t] | _ => [] end) inputs) "".
Proof.
  destruct (run_history inputs) as (_ & Hana & Htick).
  split; [exact Hana | exact Htick].
Qed.



(** *** The handler, whatever the state and the outcome *)

Lemma append_injective (p a b : string) : p ++ a = p ++ b -> a = b.
Proof.
  induction p as [| c p IH]; cbn; intros H; [exact H |].
  injection H as H. exact (IH H).
Qed.

(** X14: in every state and for every outcome, one invocation of the
    handler never calls [setTicker] and leaves the ticker cell as it
    was, sends at most one request, and any request it sends is the GET
    for the ticker of the state it started in. *)
Theorem handler_keeps_ticker_and_sends_at_most_once
  (net : Axios.request -> Axios.outcome) (s : State) :
  ticker (final s (analyze net s)) = ticker s
  /\ (forall t, ~ In (SetTicker t) (calls (analyze net s)))
  /\ length (requests (analyze net s)) <= 1
  /\ (forall r, In r (requests (analyze net s)) ->
                r = Axios.get ("http://127.0.0.1:8000/analyze/" ++ ticker s))
  /\ (requests (analyze net s) = [] <-> ticker s = "").
Proof.
  destruct (string_dec (ticker s) "") as [Ht | Ht].
  - rewrite (analyze_empty net s Ht). cbn.
    split; [reflexivity |]. split; [| split; [lia |]].
    + intros t [H | []]. discriminate H.
    + split; [intros r [] | split; [intros _; exact Ht | reflexivity]].
  - rewrite (analyze_filled net s Ht).
    destruct (net (Spec.request_for (ticker s))) as [resp | err]; cbn;
      (split; [reflexivity |]); (split; [| split; [lia |]]);
      try (intros t Hin;
           repeat (destruct Hin as [Hin | Hin]; [discriminate Hin |]);
           exact Hin);
      (split;
       [intros r [<- | []]; reflexivity
       | split; [discriminate | intros Hc; contradiction]]).
Qed.

(** X15: the ticker is put in the URL as it is, so two tickers are sent
    to the same URL only when they are the same text. *)
Theorem urls_tell_tickers_apart (t1 t2 : string) :
  analyze_url t1 = analyze_url t2 -> t1 = t2.
Proof.
  unfold analyze_url. cbn [JS.to_string]. intros H.
  apply append_injective in H. apply append_injective in H. exact H.
Qed.

Lemma urls_tell_tickers_apart_witness :
  analyze_url "TCS.NS" = analyze_url "TCS.NS" /\ "TCS.NS" = "TCS.NS".
Proof.
  split; [reflexivity |].
  apply (urls_tell_tickers_apart "TCS.NS" "TCS.NS"). reflexivity.
Defined.

(** X16: a 2xx reply whose body is falsy ([null], [false], [0], the
    empty text) is stored like any other and no error is set: the page
    renders with neither an analysis block nor an error paragraph, only
    the text of the body, if it has one, after the button. *)
Theorem falsy_body_shows_no_block
  (net : Axios.request -> Axios.outcome) (s : State)
  (resp : Axios.response) :
  ticker s <> "" ->
  net (Spec.request_for (ticker s)) = Axios.Resolved resp ->
  JS.truthy (Axios.data resp) = false ->
  exists ns,
    React.mount_value (Axios.data resp) = JS.Normal ns
    /\ render (final s (analyze net s))
       = JS.Normal
           (Shape.page_of (Spec.succeeded s (Axios.data resp)) [] ns)
    /\ React.by_tag "h2"
         (Shape.page_of (Spec.succeeded s (Axios.data resp)) [] ns) = []
    /\ React.by_tag "p"
         (Shape.page_of (Spec.succeeded s (Axios.data resp)) [] ns) = []
    /\ React.by_tag "img"
         (Shape.page_of (Spec.succeeded s (Axios.data resp)) [] ns) = [].
Proof.
  intros Ht Hnet Hfalsy.
  assert (Hfinal : final s (analyze net s)
                   = Spec.succeeded s (Axios.data resp)).
  { rewrite (analyze_filled net s Ht), Hnet. reflexivity. }
  destruct (renderable_mounts _ (falsy_renderable _ Hfalsy)) as [ns Hns].
  exists ns. split; [exact Hns |]. split.
  - rewrite Hfinal, render_parts. unfold analysis_part, displayed_error.
    cbn [Spec.succeeded ticker analysis error]. rewrite Hfalsy.
    cbn [error_part JS.truthy React.mount React.mount_value].
    rewrite Hns. reflexivity.
  - pose proof (mount_value_texts _ ns Hns) as Htexts.
    unfold Shape.page_of, Shape.title_node, Shape.input_node,
      Shape.button_node.
    repeat split; autorewrite with tags;
      rewrite (by_tag_texts _ ns Htexts); reflexivity.
Qed.

Lemma falsy_body_shows_no_block_witness :
  ticker (Spec.with_ticker "TCS.NS") <> ""
  /\ Spec.always 200 (JS.Num (JS.Zero false)) (Spec.request_for "TCS.NS")
     = Axios.Resolved {| Axios.status := 200;
                         Axios.data := JS.Num (JS.Zero false) |}
  /\ JS.truthy (JS.Num (JS.Zero false)) = false
  /\ exists ns,
       React.mount_value (JS.Num (JS.Zero false)) = JS.Normal ns
       /\ render (final (Spec.with_ticker "TCS.NS")
                    (analyze (Spec.always 200 (JS.Num (JS.Zero false)))
                       (Spec.with_ticker "TCS.NS")))
          = JS.Normal
              (Shape.page_of
                 (Spec.succeeded (Spec.with_ticker "TCS.NS")
                    (JS.Num (JS.Zero false))) [] ns).
Proof.
  split; [discriminate |]. split; [reflexivity |]. split; [reflexivity |].
  destruct (falsy_body_shows_no_block
              (Spec.always 200 (JS.Num (JS.Zero false)))
              (Spec.with_ticker "TCS.NS")
              {| Axios.status := 200;
                 Axios.data := JS.Num (JS.Zero false) |})
    as (ns & Hns & Hrender & _);
    [discriminate | reflexivity | reflexivity |].
  exists ns. split; [exact Hns | exact Hrender].
Defined.

(** *** The order of the metrics *)

Lemma insert_by_index_permutation {A} (p : string * A)
  (l : list (string * A)) :
  Permutation (JS.insert_by_index p l) (p :: l).
Proof.
  induction l as [| q rest IH]; cbn; [reflexivity |].
  destruct (N.ltb (JS.index_of (fst p)) (JS.index_of (fst q)));
    [reflexivity |].
  rewrite IH. apply perm_swap.
Qed.

Lemma sort_by_index_permutation {A} (l : list (string * A)) :
  Permutation (JS.sort_by_index l) l.
Proof.
  induction l as [| p rest IH]; cbn; [reflexivity |].
  fold (JS.sort_by_index rest).
  rewrite insert_by_index_permutation. now constructor.
Qed.

Lemma partition_permutation {A} (f : A -> bool) (l : list A) :
  Permutation (filter f l ++ filter (fun x => negb (f x)) l) l.
Proof.
  induction l as [| x rest IH]; cbn; [reflexivity |].
  destruct (f x); cbn.
  - now constructor.
  - rewrite <- Permutation_middle. now constructor.
Qed.

Lemma filter_none {A} (f : A -> bool) (l : list A) :
  Forall (fun x => f x = false) l -> filter f l = [].
Proof.
  induction 1 as [| x rest Hx _ IH]; cbn; [reflexivity |].
  now rewrite Hx.
Qed.

Lemma filter_filter_same {A} (f : A -> bool) (l : list A) :
  filter f (filter f l) = filter f l.
Proof.
  induction l as [| x rest IH]; cbn; [reflexivity |].
  destruct (f x) eqn:Hx; cbn; [rewrite Hx; now f_equal | exact IH].
Qed.

